(** * Unisender client hooks and the test banner: a shallow embedding

    The repository is consumer-side glue around [fetch]: two React hooks
    ([useUnisender] of the newsletter extension and [useUnisender] of the
    Unisender Go extension) and the [UnisenderTestButton] banner.  The hooks
    are asynchronous functions that set two pieces of UI state, perform one
    network call and build a result object inside [try]/[catch]/[finally].

    The embedding below follows the TypeScript text statement by statement in
    a small state-and-exception monad.  The browser is a record: the hook
    state, the component state, [localStorage], the timer queue, a clock and
    a chronological log of the observable effects. *)

From Stdlib Require Import ZArith String Ascii List DecimalString.
From stdpp Require Import base option list strings gmap.

Local Open Scope string_scope.
Local Open Scope Z_scope.

(** ** JavaScript data *)

(** A parsed JSON document.  Numbers are the integers, which is all the
    endpoint's identifiers need; strings are kept as their UTF-8 bytes.  An
    object is the list of its own properties in insertion order, each key
    occurring once (what [JSON.parse] produces). *)
#[warnings="-register-all"]
Inductive json : Type :=
| JNull
| JBool (b : bool)
| JNum (n : Z)
| JStr (s : string)
| JArr (items : list json)
| JObj (fields : list (string * json)).

(** A JavaScript value that may be [undefined] ([None]). *)
Definition jsval : Type := option json.

(** An object literal as the code writes it: keys in source order, a value
    possibly [undefined]. *)
Definition js_object : Type := list (string * jsval).

Fixpoint assoc {A : Type} (k : string) (l : list (string * A)) : option A :=
  match l with
  | [] => None
  | (k', v) :: rest => if String.eqb k k' then Some v else assoc k rest
  end.

(** Reading a property of an object literal: an absent key and a key bound
    to [undefined] both read as [undefined]. *)
Definition prop (o : js_object) (k : string) : jsval :=
  match assoc k o with
  | Some v => v
  | None => None
  end.

Definition keys (o : js_object) : list string := map fst o.

(** JavaScript truthiness, as used by [||]. *)
Definition truthy (v : jsval) : bool :=
  match v with
  | None => false
  | Some JNull => false
  | Some (JBool b) => b
  | Some (JNum n) => negb (n =? 0)
  | Some (JStr s) => negb (String.eqb s "")
  | Some (JArr _) => true
  | Some (JObj _) => true
  end.

(** [v || d] where [d] is a string literal. *)
Definition or_else (v : jsval) (d : string) : json :=
  match v with
  | Some j => if truthy v then j else JStr d
  | None => JStr d
  end.

(** What is thrown: an [Error] instance with its [message], or any other
    value. *)
Inductive thrown : Type :=
| ErrorInstance (message : string)
| NonError (v : jsval).

Inductive completion (A : Type) : Type :=
| Normal (a : A)
| Throw (e : thrown).
Arguments Normal {A} a.
Arguments Throw {A} e.

(** ** [JSON.stringify] *)

Definition hex_digit (n : N) : ascii :=
  ascii_of_N (if (n <? 10)%N then 48 + n else 87 + n)%N.

Definition dquote : string := String "034"%char "".

(** One character inside a JSON string literal. *)
Definition escape_char (c : ascii) : string :=
  let n := N_of_ascii c in
  if (n =? 34)%N then "\" +:+ dquote
  else if (n =? 92)%N then "\\"
  else if (n =? 8)%N then "\b"
  else if (n =? 9)%N then "\t"
  else if (n =? 10)%N then "\n"
  else if (n =? 12)%N then "\f"
  else if (n =? 13)%N then "\r"
  else if (n <? 32)%N then
    "\u00" +:+ String (hex_digit (n / 16)) (String (hex_digit (n mod 16)) "")
  else String c "".

Fixpoint escape (s : string) : string :=
  match s with
  | EmptyString => ""
  | String c rest => escape_char c +:+ escape rest
  end.

Definition quote (s : string) : string := dquote +:+ escape s +:+ dquote.

Fixpoint join (sep : string) (l : list string) : string :=
  match l with
  | [] => ""
  | [x] => x
  | x :: rest => x +:+ sep +:+ join sep rest
  end.

Definition string_of_Z (n : Z) : string := NilEmpty.string_of_int (Z.to_int n).

Fixpoint JSON_stringify (j : json) : string :=
  match j with
  | JNull => "null"
  | JBool true => "true"
  | JBool false => "false"
  | JNum n => string_of_Z n
  | JStr s => quote s
  | JArr items => "[" +:+ join "," (map JSON_stringify items) +:+ "]"
  | JObj fields =>
      "{" +:+ join "," (map (fun kv => quote (fst kv) +:+ ":" +:+ JSON_stringify (snd kv)) fields)
          +:+ "}"
  end.

(** Serialising an object literal: a property whose value is [undefined] is
    left out. *)
Definition defined_fields (o : js_object) : list (string * json) :=
  omap (fun kv => match snd kv with Some v => Some (fst kv, v) | None => None end) o.

Definition JSON_stringify_object (o : js_object) : string :=
  JSON_stringify (JObj (defined_fields o)).

(** ** The browser: requests, responses, state, effects *)

(** The second argument of [fetch]. *)
Record RequestInit : Type := {
  method : string;
  headers : list (string * string);
  body : string;
}.

(** A [Response]: its status code and what [response.json()] settles to
    (the parsed body, or the rejection when the body is not JSON). *)
Module Response.
Record t : Type := make {
  status : Z;
  json : completion json;
}.

(** [response.ok]: the status is in the range 200-299. *)
Definition ok (r : t) : bool := (200 <=? status r) && (status r <=? 299).
End Response.

(** What [await fetch(url, init)] settles to. *)
Inductive fetch_outcome : Type :=
| FetchRejects (e : thrown)
| FetchResolves (r : Response.t).

(** The endpoint as the client sees it. *)
Definition network : Type := string -> RequestInit -> fetch_outcome.

(** The closure handed to [setTimeout] by the banner,
    [() => { setIsConfigured(true); }]. *)
Inductive timer_callback : Type :=
| HideBanner.

Inductive event : Type :=
| EvSetIsLoading (b : bool)
| EvSetError (e : json)
| EvFetch (url : string) (init : RequestInit)
| EvGetItem (key : string)
| EvSetItem (key value : string)
| EvSetTimeout (cb : timer_callback) (delay : Z).

(** One page: the state cells of one hook instance ([isLoading], [error];
    [JNull] is [null]), the state cells of the banner that owns it
    ([status] is one of the strings idle, success, error; [message] holds
    whatever [setMessage] was given), [localStorage], pending timers with
    their due time, the clock in milliseconds, and the effects performed so
    far, oldest first. *)
Record world : Type := World {
  isLoading : bool;
  error : json;
  isConfigured : bool;
  email : string;
  status : string;
  message : json;
  localStorage : gmap string string;
  timers : list (Z * timer_callback);
  now : Z;
  log : list event;
}.

Definition emit (e : event) (w : world) : world :=
  World (isLoading w) (error w) (isConfigured w) (email w) (status w) (message w)
        (localStorage w) (timers w) (now w) (log w ++ [e]).

(** ** The monad of asynchronous functions

    A computation reads the endpoint, transforms the page and completes
    normally or by throwing.  For an [async] function, completing normally
    is the promise resolving and throwing is the promise rejecting. *)
Definition M (A : Type) : Type := network -> world -> completion A * world.

Definition ret {A : Type} (a : A) : M A := fun _ w => (Normal a, w).

Definition bind {A B : Type} (m : M A) (k : A -> M B) : M B :=
  fun net w =>
    match m net w with
    | (Normal a, w') => k a net w'
    | (Throw e, w') => (Throw e, w')
    end.

Definition throw {A : Type} (e : thrown) : M A := fun _ w => (Throw e, w).

Notation "x <- m ;; k" := (bind m (fun x => k))
  (at level 100, m at next level, right associativity).
Notation "m ;; k" := (bind m (fun _ => k))
  (at level 100, right associativity).

(** [try { body } catch (err) { handler } finally { cleanup }]: the cleanup
    runs last on every path; the value is the body's, or the handler's when
    the body threw; a throw out of the handler or the cleanup propagates. *)
Definition try_catch_finally {A : Type} (body : M A) (handler : thrown -> M A)
    (cleanup : M unit) : M A :=
  fun net w =>
    let '(c, w1) :=
      match body net w with
      | (Normal a, w') => (Normal a, w')
      | (Throw e, w') => handler e net w'
      end in
    match cleanup net w1 with
    | (Normal _, w2) => (c, w2)
    | (Throw e, w2) => (Throw e, w2)
    end.

Definition await {A : Type} (c : completion A) : M A := fun _ w => (c, w).

(** State setters of the hook. *)
Definition setIsLoading (b : bool) : M unit :=
  fun _ w =>
    (Normal tt,
     emit (EvSetIsLoading b)
       (World b (error w) (isConfigured w) (email w) (status w) (message w)
              (localStorage w) (timers w) (now w) (log w))).

Definition setError (e : json) : M unit :=
  fun _ w =>
    (Normal tt,
     emit (EvSetError e)
       (World (isLoading w) e (isConfigured w) (email w) (status w) (message w)
              (localStorage w) (timers w) (now w) (log w))).

Definition fetch (url : string) (init : RequestInit) : M Response.t :=
  fun net w =>
    match net url init with
    | FetchRejects e => (Throw e, emit (EvFetch url init) w)
    | FetchResolves r => (Normal r, emit (EvFetch url init) w)
    end.

(** The text of the [TypeError] raised by reading a property of [null]
    (the wording is the engine's; this is V8's). *)
Definition null_read_message (k : string) : string :=
  "Cannot read properties of null (reading '" +:+ k +:+ "')".

(** [data.k] for a parsed JSON document [data] and one of the keys the hooks
    read ([error], [person_id], [message], [job_id], none of which is
    inherited from a prototype): reading from [null] throws a [TypeError],
    an object yields its own property, anything else yields [undefined]. *)
Definition get (data : json) (k : string) : M jsval :=
  match data with
  | JNull => throw (ErrorInstance (null_read_message k))
  | JObj fields => ret (assoc k fields)
  | _ => ret None
  end.

(** [err instanceof Error ? err.message : "Network error"]. *)
Definition message_of (err : thrown) : string :=
  match err with
  | ErrorInstance m => m
  | NonError _ => "Network error"
  end.

(** ** The newsletter hook: [subscribe] and [unsubscribe] *)

Module Unisender.

Record SubscribeParams : Type := {
  email : string;
  name : option string;
  tags : option string;
}.

Definition subscribe (apiUrl : string) (params : SubscribeParams) : M js_object :=
  setIsLoading true ;;
  setError JNull ;;
  try_catch_finally
    (response <- fetch (apiUrl +:+ "?action=subscribe")
                   {| method := "POST";
                      headers := [("Content-Type", "application/json")];
                      body := JSON_stringify_object
                                [("email", Some (JStr (email params)));
                                 ("name", JStr <$> name params);
                                 ("tags", JStr <$> tags params)] |} ;;
     data <- await (Response.json response) ;;
     if negb (Response.ok response) then
       e <- get data "error" ;;
       setError (or_else e "Subscribe failed") ;;
       e' <- get data "error" ;;
       ret [("success", Some (JBool false)); ("error", e')]
     else
       person_id <- get data "person_id" ;;
       ret [("success", Some (JBool true)); ("person_id", person_id)])
    (fun err =>
       let message := message_of err in
       setError (JStr message) ;;
       ret [("success", Some (JBool false)); ("error", Some (JStr message))])
    (setIsLoading false).

Definition unsubscribe (apiUrl : string) (email : string) : M js_object :=
  setIsLoading true ;;
  setError JNull ;;
  try_catch_finally
    (response <- fetch (apiUrl +:+ "?action=unsubscribe")
                   {| method := "POST";
                      headers := [("Content-Type", "application/json")];
                      body := JSON_stringify_object [("email", Some (JStr email))] |} ;;
     data <- await (Response.json response) ;;
     if negb (Response.ok response) then
       e <- get data "error" ;;
       setError (or_else e "Unsubscribe failed") ;;
       e' <- get data "error" ;;
       ret [("success", Some (JBool false)); ("error", e')]
     else
       message <- get data "message" ;;
       ret [("success", Some (JBool true)); ("message", message)])
    (fun err =>
       let message := message_of err in
       setError (JStr message) ;;
       ret [("success", Some (JBool false)); ("error", Some (JStr message))])
    (setIsLoading false).

End Unisender.

(** ** The Unisender Go hook: [sendEmail], [sendTemplate], [sendTest] *)

Module UnisenderGo.

Definition strings_record (r : list (string * string)) : json :=
  JObj (map (fun kv => (fst kv, JStr (snd kv))) r).

Definition strings_array (l : list string) : json := JArr (map JStr l).

Module SendEmailParams.
Record t : Type := make {
  to_email : string;
  to_name : option string;
  subject : string;
  body_html : string;
  substitutions : option (list (string * string));
  tags : option (list string);
}.

(** The object the caller passes, keys in the order of the interface. *)
Definition object (p : t) : js_object :=
  [("to_email", Some (JStr (to_email p)));
   ("to_name", JStr <$> to_name p);
   ("subject", Some (JStr (subject p)));
   ("body_html", Some (JStr (body_html p)));
   ("substitutions", strings_record <$> substitutions p);
   ("tags", strings_array <$> tags p)].
End SendEmailParams.

Module SendTemplateParams.
Record t : Type := make {
  to_email : string;
  to_name : option string;
  template_id : string;
  subject : option string;
  substitutions : option (list (string * string));
}.

Definition object (p : t) : js_object :=
  [("to_email", Some (JStr (to_email p)));
   ("to_name", JStr <$> to_name p);
   ("template_id", Some (JStr (template_id p)));
   ("subject", JStr <$> subject p);
   ("substitutions", strings_record <$> substitutions p)].
End SendTemplateParams.

Module SendTestParams.
Record t : Type := make {
  to_email : string;
}.

Definition object (p : t) : js_object :=
  [("to_email", Some (JStr (to_email p)))].
End SendTestParams.

Definition sendEmail (apiUrl : string) (params : SendEmailParams.t) : M js_object :=
  setIsLoading true ;;
  setError JNull ;;
  try_catch_finally
    (response <- fetch (apiUrl +:+ "?action=send")
                   {| method := "POST";
                      headers := [("Content-Type", "application/json")];
                      body := JSON_stringify_object (SendEmailParams.object params) |} ;;
     data <- await (Response.json response) ;;
     if negb (Response.ok response) then
       e <- get data "error" ;;
       setError (or_else e "Send failed") ;;
       e' <- get data "error" ;;
       ret [("success", Some (JBool false)); ("error", e')]
     else
       job_id <- get data "job_id" ;;
       ret [("success", Some (JBool true)); ("job_id", job_id)])
    (fun err =>
       let message := message_of err in
       setError (JStr message) ;;
       ret [("success", Some (JBool false)); ("error", Some (JStr message))])
    (setIsLoading false).

Definition sendTemplate (apiUrl : string) (params : SendTemplateParams.t) : M js_object :=
  setIsLoading true ;;
  setError JNull ;;
  try_catch_finally
    (response <- fetch (apiUrl +:+ "?action=send-template")
                   {| method := "POST";
                      headers := [("Content-Type", "application/json")];
                      body := JSON_stringify_object (SendTemplateParams.object params) |} ;;
     data <- await (Response.json response) ;;
     if negb (Response.ok response) then
       e <- get data "error" ;;
       setError (or_else e "Send failed") ;;
       e' <- get data "error" ;;
       ret [("success", Some (JBool false)); ("error", e')]
     else
       job_id <- get data "job_id" ;;
       ret [("success", Some (JBool true)); ("job_id", job_id)])
    (fun err =>
       let message := message_of err in
       setError (JStr message) ;;
       ret [("success", Some (JBool false)); ("error", Some (JStr message))])
    (setIsLoading false).

Definition sendTest (apiUrl : string) (params : SendTestParams.t) : M js_object :=
  setIsLoading true ;;
  setError JNull ;;
  try_catch_finally
    (response <- fetch (apiUrl +:+ "?action=test")
                   {| method := "POST";
                      headers := [("Content-Type", "application/json")];
                      body := JSON_stringify_object (SendTestParams.object params) |} ;;
     data <- await (Response.json response) ;;
     if negb (Response.ok response) then
       e <- get data "error" ;;
       setError (or_else e "Test failed") ;;
       e' <- get data "error" ;;
       ret [("success", Some (JBool false)); ("error", e')]
     else
       job_id <- get data "job_id" ;;
       ret [("success", Some (JBool true)); ("job_id", job_id)])
    (fun err =>
       let message := message_of err in
       setError (JStr message) ;;
       ret [("success", Some (JBool false)); ("error", Some (JStr message))])
    (setIsLoading false).

End UnisenderGo.

(** ** All five actions at once *)

Inductive action : Type :=
| Subscribe (params : Unisender.SubscribeParams)
| Unsubscribe (email : string)
| SendEmail (params : UnisenderGo.SendEmailParams.t)
| SendTemplate (params : UnisenderGo.SendTemplateParams.t)
| SendTest (params : UnisenderGo.SendTestParams.t).

Definition call (apiUrl : string) (a : action) : M js_object :=
  match a with
  | Subscribe params => Unisender.subscribe apiUrl params
  | Unsubscribe email => Unisender.unsubscribe apiUrl email
  | SendEmail params => UnisenderGo.sendEmail apiUrl params
  | SendTemplate params => UnisenderGo.sendTemplate apiUrl params
  | SendTest params => UnisenderGo.sendTest apiUrl params
  end.

(** ** String helpers of the banner *)

Definition bytes (codes : list N) : string :=
  fold_right (fun c s => String (ascii_of_N c) s) "" codes.

(** The code points [String.prototype.trim] removes (WhiteSpace and
    LineTerminator of ECMAScript), each as its UTF-8 bytes. *)
Definition white_space : list string :=
  map bytes
    [[9]; [10]; [11]; [12]; [13]; [32]; [194; 160]; [225; 154; 128];
     [226; 128; 128]; [226; 128; 129]; [226; 128; 130]; [226; 128; 131];
     [226; 128; 132]; [226; 128; 133]; [226; 128; 134]; [226; 128; 135];
     [226; 128; 136]; [226; 128; 137]; [226; 128; 138]; [226; 128; 168];
     [226; 128; 169]; [226; 128; 175]; [226; 129; 159]; [227; 128; 128];
     [239; 187; 191]]%N.

Fixpoint strip_prefix (p s : string) : option string :=
  match p, s with
  | EmptyString, _ => Some s
  | String a p', String b s' => if Ascii.eqb a b then strip_prefix p' s' else None
  | String _ _, EmptyString => None
  end.

Fixpoint strip_any (ps : list string) (s : string) : option string :=
  match ps with
  | [] => None
  | p :: rest =>
      match strip_prefix p s with
      | Some s' => Some s'
      | None => strip_any rest s
      end
  end.

Fixpoint strip_all (fuel : nat) (ps : list string) (s : string) : string :=
  match fuel with
  | O => s
  | S fuel' =>
      match strip_any ps s with
      | Some s' => strip_all fuel' ps s'
      | None => s
      end
  end.

Definition trimStart (s : string) : string :=
  strip_all (String.length s) white_space s.

Definition trimEnd (s : string) : string :=
  String.rev (strip_all (String.length s) (map String.rev white_space) (String.rev s)).

Definition trim (s : string) : string := trimEnd (trimStart s).

(** [s.includes(sub)]. *)
Definition includes (s sub : string) : bool :=
  match String.index 0 sub s with
  | Some _ => true
  | None => false
  end.

(** ** The test banner *)

Module UnisenderTestButton.

Record Props : Type := {
  apiUrl : string;
  storageKey : option string;
  forceShow : option bool;
}.

(** Destructuring defaults of the component's parameter. *)
Definition storageKey_of (p : Props) : string :=
  default "unisender_configured" (storageKey p).
Definition forceShow_of (p : Props) : bool :=
  default false (forceShow p).

(** State setters of the component. *)
Definition setIsConfigured (b : bool) : M unit :=
  fun _ w =>
    (Normal tt,
     World (isLoading w) (error w) b (email w) (status w) (message w)
           (localStorage w) (timers w) (now w) (log w)).

Definition setEmail (s : string) : M unit :=
  fun _ w =>
    (Normal tt,
     World (isLoading w) (error w) (isConfigured w) s (status w) (message w)
           (localStorage w) (timers w) (now w) (log w)).

Definition setStatus (s : string) : M unit :=
  fun _ w =>
    (Normal tt,
     World (isLoading w) (error w) (isConfigured w) (email w) s (message w)
           (localStorage w) (timers w) (now w) (log w)).

Definition setMessage (m : json) : M unit :=
  fun _ w =>
    (Normal tt,
     World (isLoading w) (error w) (isConfigured w) (email w) (status w) m
           (localStorage w) (timers w) (now w) (log w)).

(** The value of [email] captured by the handler: the state at the render
    that created it. *)
Definition readEmail : M string := fun _ w => (Normal (email w), w).

(** [localStorage.getItem] and [localStorage.setItem] (storage that is
    available and has room: neither throws). *)
Definition getItem (k : string) : M (option string) :=
  fun _ w => (Normal (localStorage w !! k), emit (EvGetItem k) w).

Definition setItem (k v : string) : M unit :=
  fun _ w =>
    (Normal tt,
     emit (EvSetItem k v)
       (World (isLoading w) (error w) (isConfigured w) (email w) (status w) (message w)
              (<[k := v]> (localStorage w)) (timers w) (now w) (log w))).

Definition setTimeout (cb : timer_callback) (delay : Z) : M unit :=
  fun _ w =>
    (Normal tt,
     emit (EvSetTimeout cb delay)
       (World (isLoading w) (error w) (isConfigured w) (email w) (status w) (message w)
              (localStorage w) (timers w ++ [(now w + delay, cb)]) (now w) (log w))).

(** The state of a freshly created instance, before any effect ran: the
    [useState] initial values of the component and of its hook. *)
Definition initial (storage : gmap string string) (clock : Z) : world :=
  World false JNull true "" "idle" (JStr "") storage [] clock [].

(** The body of the [useEffect]. *)
Definition effect (p : Props) : M unit :=
  configured <- getItem (storageKey_of p) ;;
  setIsConfigured (bool_decide (configured = Some "true") && negb (forceShow_of p)).

(** Mounting runs the effect once. *)
Definition mount (p : Props) : M unit := effect p.

(** A render with new props runs the effect again exactly when one of its
    dependencies [storageKey], [forceShow] changed. *)
Definition rerender (old new : Props) : M unit :=
  if bool_decide (storageKey_of old = storageKey_of new)
     && bool_decide (forceShow_of old = forceShow_of new)
  then ret tt
  else effect new.

(** The input's [onChange]. *)
Definition onChange (value : string) : M unit := setEmail value.

Definition handleTest (p : Props) : M unit :=
  email <- readEmail ;;
  if String.eqb (trim email) "" then
    setStatus "error" ;;
    setMessage (JStr "Введите email")
  else if negb (includes email "@") then
    setStatus "error" ;;
    setMessage (JStr "Неверный формат email")
  else
    setStatus "idle" ;;
    setMessage (JStr "") ;;
    result <- UnisenderGo.sendTest (apiUrl p)
                (UnisenderGo.SendTestParams.make (trim email)) ;;
    if truthy (prop result "success") then
      setStatus "success" ;;
      setMessage (JStr "Тестовое письмо отправлено! Проверьте почту.") ;;
      setItem (storageKey_of p) "true" ;;
      setTimeout HideBanner 3000
    else
      setStatus "error" ;;
      setMessage (or_else (prop result "error") "Ошибка отправки").

(** What the component returns, without the inline styles: the input, the
    button and the optional message box (its text and whether it is drawn
    in the success colours). *)
Record Banner : Type := {
  input_value : string;
  disabled : bool;
  button_text : string;
  message_box : option (json * bool);
}.

(** The component's [return]: [null] when [isConfigured]. *)
Definition render (w : world) : option Banner :=
  if isConfigured w then None
  else
    Some {| input_value := email w;
            disabled := isLoading w;
            button_text := if isLoading w then "Отправка..."
                           else "Отправить тестовое письмо";
            message_box := if truthy (Some (message w))
                           then Some (message w, String.eqb (status w) "success")
                           else None |}.

(** Running a timer's closure. *)
Definition fire (cb : timer_callback) (w : world) : world :=
  match cb with
  | HideBanner =>
      World (isLoading w) (error w) true (email w) (status w) (message w)
            (localStorage w) (timers w) (now w) (log w)
  end.

Definition due (t : Z) (timer : Z * timer_callback) : bool := fst timer <=? t.

(** Letting [ms] milliseconds pass on an ideal clock: every timer whose
    time has come runs and leaves the queue. *)
Definition advance (ms : Z) (w : world) : world :=
  let t := now w + ms in
  fold_left (fun w' timer => fire (snd timer) w')
    (List.filter (due t) (timers w))
    (World (isLoading w) (error w) (isConfigured w) (email w) (status w) (message w)
           (localStorage w)
           (List.filter (fun timer => negb (due t timer)) (timers w))
           t (log w)).

End UnisenderTestButton.

(** Running a computation: the completion and the page afterwards. *)
Definition run {A : Type} (m : M A) (net : network) (w : world) : completion A * world :=
  m net w.

(** The storage operations in a log. *)
Definition is_read (e : event) : bool :=
  match e with EvGetItem _ => true | _ => false end.
Definition is_write (e : event) : bool :=
  match e with EvSetItem _ _ => true | _ => false end.
Definition is_fetch (e : event) : bool :=
  match e with EvFetch _ _ => true | _ => false end.

(** ** The five actions as instances of one shape

    The source repeats one body five times; the tables below name what
    differs: the [action] discriminator of the URL, the object that is
    serialised, the fallback text of the displayed error and the property
    copied from a successful response. *)

Definition discriminator (a : action) : string :=
  match a with
  | Subscribe _ => "subscribe"
  | Unsubscribe _ => "unsubscribe"
  | SendEmail _ => "send"
  | SendTemplate _ => "send-template"
  | SendTest _ => "test"
  end.

Definition payload (a : action) : js_object :=
  match a with
  | Subscribe params =>
      [("email", Some (JStr (Unisender.email params)));
       ("name", JStr <$> Unisender.name params);
       ("tags", JStr <$> Unisender.tags params)]
  | Unsubscribe email => [("email", Some (JStr email))]
  | SendEmail params => UnisenderGo.SendEmailParams.object params
  | SendTemplate params => UnisenderGo.SendTemplateParams.object params
  | SendTest params => UnisenderGo.SendTestParams.object params
  end.

Definition fallback (a : action) : string :=
  match a with
  | Subscribe _ => "Subscribe failed"
  | Unsubscribe _ => "Unsubscribe failed"
  | SendEmail _ => "Send failed"
  | SendTemplate _ => "Send failed"
  | SendTest _ => "Test failed"
  end.

Definition success_field (a : action) : string :=
  match a with
  | Subscribe _ => "person_id"
  | Unsubscribe _ => "message"
  | SendEmail _ => "job_id"
  | SendTemplate _ => "job_id"
  | SendTest _ => "job_id"
  end.

Definition request_url (apiUrl : string) (a : action) : string :=
  apiUrl +:+ "?action=" +:+ discriminator a.

Definition request_init (a : action) : RequestInit :=
  {| method := "POST";
     headers := [("Content-Type", "application/json")];
     body := JSON_stringify_object (payload a) |}.

(** What the endpoint answers to the request of action [a]. *)
Definition answer (net : network) (apiUrl : string) (a : action) : fetch_outcome :=
  net (request_url apiUrl a) (request_init a).

(** The own property [k] of a parsed document, if it is an object that has
    one. *)
Definition field (data : json) (k : string) : option json :=
  match data with
  | JObj fields => assoc k fields
  | _ => None
  end.

Definition generic (apiUrl disc : string) (o : js_object) (fb fld : string) : M js_object :=
  setIsLoading true ;;
  setError JNull ;;
  try_catch_finally
    (response <- fetch (apiUrl +:+ "?action=" +:+ disc)
                   {| method := "POST";
                      headers := [("Content-Type", "application/json")];
                      body := JSON_stringify_object o |} ;;
     data <- await (Response.json response) ;;
     if negb (Response.ok response) then
       e <- get data "error" ;;
       setError (or_else e fb) ;;
       e' <- get data "error" ;;
       ret [("success", Some (JBool false)); ("error", e')]
     else
       v <- get data fld ;;
       ret [("success", Some (JBool true)); (fld, v)])
    (fun err =>
       let message := message_of err in
       setError (JStr message) ;;
       ret [("success", Some (JBool false)); ("error", Some (JStr message))])
    (setIsLoading false).

(** The page after a call that performed the effects [outcome] between the
    request and the final [setIsLoading(false)] and left [err] in the
    [error] cell. *)
Definition after_call (w : world) (apiUrl : string) (a : action)
    (outcome : list event) (err : json) : world :=
  World false err (isConfigured w) (email w) (status w) (message w)
        (localStorage w) (timers w) (now w)
        (log w ++ [EvSetIsLoading true; EvSetError JNull;
                   EvFetch (request_url apiUrl a) (request_init a)]
               ++ outcome ++ [EvSetIsLoading false]).

(** The failure result [{ success: false, error }]. *)
Definition failure (e : jsval) : js_object :=
  [("success", Some (JBool false)); ("error", e)].

(** A transport failure with thrown value [e]: [fetch] rejects with it, or
    the response arrives and [response.json()] rejects with it. *)
Definition transport_failure (net : network) (apiUrl : string) (a : action)
    (e : thrown) : Prop :=
  answer net apiUrl a = FetchRejects e ∨
  ∃ resp, answer net apiUrl a = FetchResolves resp ∧ Response.json resp = Throw e.

(** An application-level failure: a response with a non-2xx status whose
    body parses. *)
Definition application_failure (net : network) (apiUrl : string) (a : action) : Prop :=
  ∃ resp data, answer net apiUrl a = FetchResolves resp ∧
               Response.ok resp = false ∧ Response.json resp = Normal data.

(** The events a computation added to the log of [w]. *)
Definition added (w w' : world) (evs : list event) : Prop :=
  log w' = (log w ++ evs)%list.

(** The result, the effects after the request and the final [error] state
    of a call, as a function of what the endpoint answered. *)
Definition settle (a : action) (o : fetch_outcome) : js_object * list event * json :=
  let caught (m : string) :=
    (failure (Some (JStr m)), [EvSetError (JStr m)], JStr m) in
  match o with
  | FetchRejects e => caught (message_of e)
  | FetchResolves resp =>
      match Response.json resp with
      | Throw e => caught (message_of e)
      | Normal JNull =>
          caught (null_read_message (if Response.ok resp then success_field a else "error"))
      | Normal data =>
          if Response.ok resp then
            ([("success", Some (JBool true)); (success_field a, field data (success_field a))],
             [], JNull)
          else
            (failure (field data "error"),
             [EvSetError (or_else (field data "error") (fallback a))],
             or_else (field data "error") (fallback a))
      end
  end.

(** The test send started by [handleTest] on page [w] succeeds: the typed
    address passes both checks and the result of [sendTest] has a truthy
    [success]. *)
Definition send_succeeds (p : UnisenderTestButton.Props) (net : network) (w : world) : bool :=
  negb (String.eqb (trim (email w)) "") && includes (email w) "@" &&
  match fst (run (UnisenderGo.sendTest (UnisenderTestButton.apiUrl p)
                    (UnisenderGo.SendTestParams.make (trim (email w)))) net w) with
  | Normal result => truthy (prop result "success")
  | Throw _ => false
  end.

(** ** Sample inputs *)

Definition sample_url : string := "https://functions.example/unisender".

Definition sample_subscriber : Unisender.SubscribeParams :=
  {| Unisender.email := "a@b.com"; Unisender.name := None; Unisender.tags := None |}.

Definition sample_email : UnisenderGo.SendEmailParams.t :=
  UnisenderGo.SendEmailParams.make "a@b.com" (Some "Ann") "Hello" "<p>Hi</p>"
    (Some [("code", "1234")]) (Some ["welcome"]).

Definition sample_template : UnisenderGo.SendTemplateParams.t :=
  UnisenderGo.SendTemplateParams.make "a@b.com" None "tpl-7" None None.

Definition sample_test : UnisenderGo.SendTestParams.t :=
  UnisenderGo.SendTestParams.make "a@b.com".

(** An endpoint that answers every request with the given status and
    parsed body. *)
Definition replies (code : Z) (data : json) : network :=
  fun _ _ => FetchResolves (Response.make code (Normal data)).

(** An endpoint whose response is not JSON: [response.json()] rejects. *)
Definition replies_garbage (code : Z) (e : thrown) : network :=
  fun _ _ => FetchResolves (Response.make code (Throw e)).

(** An unreachable endpoint: [fetch] rejects. *)
Definition unreachable (e : thrown) : network :=
  fun _ _ => FetchRejects e.

(** A page on which a previous call has failed. *)
Definition after_failure : world :=
  World false (JStr "Send failed") false "" "idle" (JStr "") ∅ [] 0 [].

(** A page on which the banner was mounted with nothing stored and the
    address [a@b.com] was typed. *)
Definition sample_props : UnisenderTestButton.Props :=
  {| UnisenderTestButton.apiUrl := sample_url;
     UnisenderTestButton.storageKey := None;
     UnisenderTestButton.forceShow := None |}.

Definition forced_props : UnisenderTestButton.Props :=
  {| UnisenderTestButton.apiUrl := sample_url;
     UnisenderTestButton.storageKey := None;
     UnisenderTestButton.forceShow := Some true |}.

Definition accepting : network :=
  fun _ _ => FetchResolves (Response.make 200
    (Normal (JObj [("success", JBool true); ("job_id", JStr "job-1")]))).

Definition ready : world :=
  snd (run (UnisenderTestButton.onChange "a@b.com") accepting
         (snd (run (UnisenderTestButton.mount sample_props) accepting
                 (UnisenderTestButton.initial ∅ 0)))).

(** ** The subscribe form *)

(** [data.k] as a value: what [get] does, without the page. *)
Definition read (data : json) (k : string) : completion jsval :=
  match data with
  | JNull => Throw (ErrorInstance (null_read_message k))
  | JObj fields => Normal (assoc k fields)
  | _ => Normal None
  end.

(** [String(v)] for a parsed JSON value, as [new Error(v)] applies it to its
    argument: a string is itself, an object prints as [[object Object]], an
    array joins its elements with commas, [null] elements printing as
    nothing.  Numbers are the integers below 10^21 in magnitude, which print
    as their decimal digits. *)
Fixpoint to_string (v : json) : string :=
  match v with
  | JNull => "null"
  | JBool true => "true"
  | JBool false => "false"
  | JNum n => string_of_Z n
  | JStr s => s
  | JArr items =>
      join "," (map (fun item => match item with JNull => "" | _ => to_string item end) items)
  | JObj _ => "[object Object]"
  end.

Declare Scope form_scope.

Module SubscribeForm.

(** The props.  A callback prop is kept as what calling it does to the
    handler: it returns or it throws. *)
Record Props : Type := {
  apiUrl : string;
  emailPlaceholder : option string;
  namePlaceholder : option string;
  showNameField : option bool;
  buttonText : option string;
  successMessage : option string;
  className : option string;
  onSuccess : option (completion unit);
  onError : option (string -> completion unit);
}.

(** Destructuring defaults of the component's parameter. *)
Definition emailPlaceholder_of (p : Props) : string :=
  default "Ваш email" (emailPlaceholder p).
Definition namePlaceholder_of (p : Props) : string :=
  default "Ваше имя" (namePlaceholder p).
Definition showNameField_of (p : Props) : bool :=
  default false (showNameField p).
Definition buttonText_of (p : Props) : string :=
  default "Подписаться" (buttonText p).
Definition successMessage_of (p : Props) : string :=
  default "Вы успешно подписались на рассылку!" (successMessage p).
Definition className_of (p : Props) : string :=
  default "" (className p).

(** What the handler does to the outside, oldest first. *)
Inductive effect : Type :=
| PreventDefault
| Fetch (url : string) (init : RequestInit)
| OnSuccess
| OnError (message : string).

(** The five state cells of one form and the effects performed so far. *)
Record state : Type := State {
  email : string;
  name : string;
  isLoading : bool;
  isSuccess : bool;
  error : option string;
  log : list effect;
}.

(** The [useState] initial values. *)
Definition initial : state := State "" "" false false None [].

Definition emit (e : effect) (s : state) : state :=
  State (email s) (name s) (isLoading s) (isSuccess s) (error s) (log s ++ [e]).

(** The monad of the form's handler: as [M], over the form's state. *)
Definition F (A : Type) : Type := network -> state -> completion A * state.

Definition ret {A : Type} (a : A) : F A := fun _ s => (Normal a, s).

Definition bind {A B : Type} (m : F A) (k : A -> F B) : F B :=
  fun net s =>
    match m net s with
    | (Normal a, s') => k a net s'
    | (Throw e, s') => (Throw e, s')
    end.

Definition throw {A : Type} (e : thrown) : F A := fun _ s => (Throw e, s).

Definition await {A : Type} (c : completion A) : F A := fun _ s => (c, s).

Notation "x <- m ;; k" := (bind m (fun x => k))
  (at level 100, m at next level, right associativity) : form_scope.
Notation "m ;; k" := (bind m (fun _ => k))
  (at level 100, right associativity) : form_scope.
Local Open Scope form_scope.

Definition try_catch_finally {A : Type} (body : F A) (handler : thrown -> F A)
    (cleanup : F unit) : F A :=
  fun net s =>
    let '(c, s1) :=
      match body net s with
      | (Normal a, s') => (Normal a, s')
      | (Throw e, s') => handler e net s'
      end in
    match cleanup net s1 with
    | (Normal _, s2) => (c, s2)
    | (Throw e, s2) => (Throw e, s2)
    end.

Definition preventDefault : F unit := fun _ s => (Normal tt, emit PreventDefault s).

Definition setEmail (v : string) : F unit :=
  fun _ s => (Normal tt, State v (name s) (isLoading s) (isSuccess s) (error s) (log s)).

Definition setName (v : string) : F unit :=
  fun _ s => (Normal tt, State (email s) v (isLoading s) (isSuccess s) (error s) (log s)).

Definition setIsLoading (b : bool) : F unit :=
  fun _ s => (Normal tt, State (email s) (name s) b (isSuccess s) (error s) (log s)).

Definition setIsSuccess (b : bool) : F unit :=
  fun _ s => (Normal tt, State (email s) (name s) (isLoading s) b (error s) (log s)).

Definition setError (e : option string) : F unit :=
  fun _ s => (Normal tt, State (email s) (name s) (isLoading s) (isSuccess s) e (log s)).

(** The values captured by the handler: the state at the render that
    created it. *)
Definition readEmail : F string := fun _ s => (Normal (email s), s).
Definition readName : F string := fun _ s => (Normal (name s), s).

Definition fetch (url : string) (init : RequestInit) : F Response.t :=
  fun net s =>
    match net url init with
    | FetchRejects e => (Throw e, emit (Fetch url init) s)
    | FetchResolves r => (Normal r, emit (Fetch url init) s)
    end.

(** [onSuccess?.()] and [onError?.(message)]. *)
Definition call_onSuccess (p : Props) : F unit :=
  match onSuccess p with
  | None => ret tt
  | Some outcome => fun _ s => (outcome, emit OnSuccess s)
  end.

Definition call_onError (p : Props) (message : string) : F unit :=
  match onError p with
  | None => ret tt
  | Some callback => fun _ s => (callback message, emit (OnError message) s)
  end.

Definition handleSubmit (p : Props) : F unit :=
  preventDefault ;;
  setIsLoading true ;;
  setError None ;;
  try_catch_finally
    (email <- readEmail ;;
     name <- readName ;;
     response <- fetch (apiUrl p +:+ "?action=subscribe")
                   {| method := "POST";
                      headers := [("Content-Type", "application/json")];
                      body := JSON_stringify_object
                                [("email", Some (JStr email));
                                 ("name", if showNameField_of p then Some (JStr name)
                                          else None)] |} ;;
     data <- await (Response.json response) ;;
     if negb (Response.ok response) then
       e <- await (read data "error") ;;
       throw (ErrorInstance (to_string (or_else e "Subscribe failed")))
     else
       setIsSuccess true ;;
       setEmail "" ;;
       setName "" ;;
       call_onSuccess p)
    (fun err =>
       let message := message_of err in
       setError (Some message) ;;
       call_onError p message)
    (setIsLoading false).

(** An [Input] as rendered. *)
Record Input : Type := {
  value : string;
  placeholder : string;
  disabled : bool;
}.

(** What the component returns: the success line, or the form with its
    optional name input, its email input, the submit button (disabled or
    not, with the spinner or not, and its label) and the optional error
    line. *)
Inductive View : Type :=
| SuccessLine (classes text : string)
| FormView (classes : string) (name_input : option Input) (email_input : Input)
    (button_disabled spinner : bool) (button_label : string) (error_line : option string).

Definition render (p : Props) (s : state) : View :=
  if isSuccess s then
    SuccessLine ("text-green-600 font-medium " +:+ className_of p) (successMessage_of p)
  else
    FormView ("flex flex-col gap-3 " +:+ className_of p)
      (if showNameField_of p
       then Some {| value := name s; placeholder := namePlaceholder_of p;
                    disabled := isLoading s |}
       else None)
      {| value := email s; placeholder := emailPlaceholder_of p; disabled := isLoading s |}
      (isLoading s || String.eqb (email s) "")
      (isLoading s)
      (if isLoading s then "Загрузка..." else buttonText_of p)
      (match error s with
       | Some text => if String.eqb text "" then None else Some text
       | None => None
       end).

(** The request the handler builds on state [s]. *)
Definition request_init (p : Props) (s : state) : RequestInit :=
  {| method := "POST";
     headers := [("Content-Type", "application/json")];
     body := JSON_stringify_object
               [("email", Some (JStr (email s)));
                ("name", if showNameField_of p then Some (JStr (name s)) else None)] |}.

Definition answer (p : Props) (net : network) (s : state) : fetch_outcome :=
  net (apiUrl p +:+ "?action=subscribe") (request_init p s).

(** The text the [catch] branch receives when the request itself fails, or
    [None] when the response is 2xx with a body that parses. *)
Definition failure_text (o : fetch_outcome) : option string :=
  match o with
  | FetchRejects e => Some (message_of e)
  | FetchResolves resp =>
      match Response.json resp with
      | Throw e => Some (message_of e)
      | Normal data =>
          if Response.ok resp then None
          else match read data "error" with
               | Throw e => Some (message_of e)
               | Normal v => Some (to_string (or_else v "Subscribe failed"))
               end
      end
  end.

End SubscribeForm.

(** Sample props of the form: the name field shown, both callbacks given
    and returning. *)
Definition sample_form : SubscribeForm.Props :=
  {| SubscribeForm.apiUrl := sample_url;
     SubscribeForm.emailPlaceholder := None;
     SubscribeForm.namePlaceholder := None;
     SubscribeForm.showNameField := Some true;
     SubscribeForm.buttonText := None;
     SubscribeForm.successMessage := None;
     SubscribeForm.className := None;
     SubscribeForm.onSuccess := Some (Normal tt);
     SubscribeForm.onError := Some (fun _ => Normal tt) |}.

(** The form with [a@b.com] and [Ann] typed. *)
Definition filled_form : SubscribeForm.state :=
  SubscribeForm.State "a@b.com" "Ann" false false None [].

(** Props of a form with default texts, no name field and the given
    callbacks. *)
Definition form_with (onSuccess : option (completion unit))
    (onError : option (string -> completion unit)) : SubscribeForm.Props :=
  {| SubscribeForm.apiUrl := sample_url;
     SubscribeForm.emailPlaceholder := None;
     SubscribeForm.namePlaceholder := None;
     SubscribeForm.showNameField := None;
     SubscribeForm.buttonText := None;
     SubscribeForm.successMessage := None;
     SubscribeForm.className := None;
     SubscribeForm.onSuccess := onSuccess;
     SubscribeForm.onError := onError |}.

(** * Lemmas on the hook *)

Lemma call_generic apiUrl a :
  call apiUrl a = generic apiUrl (discriminator a) (payload a) (fallback a) (success_field a).
Proof. destruct a; reflexivity. Qed.

Ltac step_call :=
  unfold run; rewrite call_generic;
  unfold generic, try_catch_finally, bind, fetch, await, get, throw, ret,
    setIsLoading, setError, emit, after_call, answer, request_url, request_init, failure in *;
  cbn [isLoading error isConfigured email status message localStorage timers now log].

Ltac close_call :=
  cbn [isLoading error isConfigured email status message localStorage timers now log negb];
  rewrite <- ?app_assoc; reflexivity.

(** [fetch] rejects: the [catch] branch. *)
Lemma call_fetch_rejects apiUrl a net w e :
  answer net apiUrl a = FetchRejects e →
  run (call apiUrl a) net w =
    (Normal (failure (Some (JStr (message_of e)))),
     after_call w apiUrl a [EvSetError (JStr (message_of e))] (JStr (message_of e))).
Proof. intros H. step_call. rewrite H. close_call. Qed.

(** [response.json()] rejects: the [catch] branch. *)
Lemma call_json_rejects apiUrl a net w resp e :
  answer net apiUrl a = FetchResolves resp →
  Response.json resp = Throw e →
  run (call apiUrl a) net w =
    (Normal (failure (Some (JStr (message_of e)))),
     after_call w apiUrl a [EvSetError (JStr (message_of e))] (JStr (message_of e))).
Proof. intros H Hj. step_call. rewrite H, Hj. close_call. Qed.

(** The body is the document [null]: the first property read throws a
    [TypeError], which the [catch] branch reports. *)
Lemma call_null_body apiUrl a net w resp :
  answer net apiUrl a = FetchResolves resp →
  Response.json resp = Normal JNull →
  let m := null_read_message (if Response.ok resp then success_field a else "error") in
  run (call apiUrl a) net w =
    (Normal (failure (Some (JStr m))), after_call w apiUrl a [EvSetError (JStr m)] (JStr m)).
Proof.
  intros H Hj. step_call. rewrite H, Hj.
  destruct (Response.ok resp); close_call.
Qed.

(** A non-2xx status with a body other than [null]. *)
Lemma call_not_ok apiUrl a net w resp data :
  answer net apiUrl a = FetchResolves resp →
  Response.ok resp = false →
  Response.json resp = Normal data →
  data ≠ JNull →
  run (call apiUrl a) net w =
    (Normal (failure (field data "error")),
     after_call w apiUrl a [EvSetError (or_else (field data "error") (fallback a))]
       (or_else (field data "error") (fallback a))).
Proof.
  intros H Hok Hj Hd. step_call. rewrite H, Hj, Hok.
  destruct data; try congruence; close_call.
Qed.

(** A 2xx status with a body other than [null]. *)
Lemma call_ok apiUrl a net w resp data :
  answer net apiUrl a = FetchResolves resp →
  Response.ok resp = true →
  Response.json resp = Normal data →
  data ≠ JNull →
  run (call apiUrl a) net w =
    (Normal [("success", Some (JBool true)); (success_field a, field data (success_field a))],
     after_call w apiUrl a [] JNull).
Proof.
  intros H Hok Hj Hd. step_call. rewrite H, Hj, Hok.
  destruct data; try congruence; close_call.
Qed.

Lemma call_run apiUrl a net w :
  run (call apiUrl a) net w =
    (Normal (settle a (answer net apiUrl a)).1.1,
     after_call w apiUrl a (settle a (answer net apiUrl a)).1.2
       (settle a (answer net apiUrl a)).2).
Proof.
  unfold settle. destruct (answer net apiUrl a) as [e|resp] eqn:Ha.
  - by apply call_fetch_rejects.
  - destruct (Response.json resp) as [data|e] eqn:Hj.
    + destruct data.
      1: exact (call_null_body apiUrl a net w resp Ha Hj).
      all: destruct (Response.ok resp) eqn:Hok;
        (by eapply call_ok) || (by eapply call_not_ok).
    + by eapply call_json_rejects.
Qed.

Lemma json_null_dec (data : json) : {data = JNull} + {data ≠ JNull}.
Proof. destruct data; (by left) || (by right). Qed.

Lemma or_else_not_null v d : or_else v d ≠ JNull.
Proof.
  unfold or_else. destruct v as [j|]; [|discriminate].
  destruct (truthy (Some j)) eqn:Ht; [|discriminate].
  intros ->. discriminate.
Qed.

(** Every call completes normally, in one of two ways: a success that
    leaves the [error] cell cleared, or a failure object together with one
    [setError] of a value other than [null]. *)
Lemma call_settles apiUrl a net w :
  ∃ r outcome err,
    run (call apiUrl a) net w = (Normal r, after_call w apiUrl a outcome err) ∧
    ((prop r "success" = Some (JBool true) ∧ outcome = [] ∧ err = JNull) ∨
     (∃ e, r = failure e ∧ outcome = [EvSetError err] ∧ err ≠ JNull)).
Proof.
  destruct (answer net apiUrl a) as [e|resp] eqn:Ha.
  - eexists _, _, _. split; [by apply call_fetch_rejects|].
    right. eexists. repeat split; discriminate.
  - destruct (Response.json resp) as [data|e] eqn:Hj.
    + destruct (json_null_dec data) as [->|Hd].
      * eexists _, _, _. split; [by eapply call_null_body|].
        right. eexists. repeat split; discriminate.
      * destruct (Response.ok resp) eqn:Hok.
        -- eexists _, _, _. split; [by eapply call_ok|]. left. done.
        -- eexists _, _, _. split; [by eapply call_not_ok|].
           right. eexists. repeat split. apply or_else_not_null.
    + eexists _, _, _. split; [by eapply call_json_rejects|].
      right. eexists. repeat split; discriminate.
Qed.

Lemma after_call_error w apiUrl a outcome err :
  error (after_call w apiUrl a outcome err) = err.
Proof. reflexivity. Qed.

Lemma after_call_isLoading w apiUrl a outcome err :
  isLoading (after_call w apiUrl a outcome err) = false.
Proof. reflexivity. Qed.

(** ** Sanity checks of the helpers *)

Example stringify_unsubscribe_body :
  JSON_stringify_object (payload (Unsubscribe "a@b.com")) =
    bytes [123; 34; 101; 109; 97; 105; 108; 34; 58; 34; 97; 64; 98; 46; 99; 111; 109; 34; 125]%N.
Proof. reflexivity. Qed.

Example stringify_skips_undefined :
  JSON_stringify_object (payload (Subscribe sample_subscriber)) =
  JSON_stringify_object (payload (Unsubscribe "a@b.com")).
Proof. reflexivity. Qed.

Example stringify_escapes :
  JSON_stringify (JArr [JNum 0; JNum (-42); JBool true; JNull; JStr (bytes [9; 92; 1]%N)]) =
    "[0,-42,true,null," +:+ dquote +:+ "\t\\\u0001" +:+ dquote +:+ "]".
Proof. reflexivity. Qed.

Example trim_examples :
  trim (bytes [32; 9; 194; 160]%N +:+ "a@b.com" +:+ bytes [10; 226; 128; 137]%N) = "a@b.com" ∧
  trim "   " = "" ∧ trim "a b" = "a b" ∧
  includes "a@b.com" "@" = true ∧ includes "ab.com" "@" = false.
Proof. repeat split; reflexivity. Qed.

Example truthy_examples :
  or_else (Some (JStr "")) "Send failed" = JStr "Send failed" ∧
  or_else (Some (JNum 0)) "Send failed" = JStr "Send failed" ∧
  or_else None "Send failed" = JStr "Send failed" ∧
  or_else (Some (JStr "quota")) "Send failed" = JStr "quota" ∧
  or_else (Some (JObj [])) "Send failed" = JObj [].
Proof. repeat split; reflexivity. Qed.

(** * The claims *)

(** C1.  For every hook action, when the response has a non-2xx status and
    its body parses, the promise resolves to a result whose [success] is
    [false] and whose [error] is the [error] field of the server's body when
    the body has one.  In particular [sendEmail] answered with status 400
    and body [{error: "bad subject"}] resolves to
    [{success: false, error: "bad subject"}] and leaves the hook's [error]
    state equal to ["bad subject"]. *)
Theorem C1_non_2xx_reports_server_error :
  (∀ apiUrl a net w resp data,
      answer net apiUrl a = FetchResolves resp →
      Response.ok resp = false →
      Response.json resp = Normal data →
      ∃ r w', run (call apiUrl a) net w = (Normal r, w') ∧
              prop r "success" = Some (JBool false) ∧
              (∀ v, field data "error" = Some v → prop r "error" = Some v)) ∧
  (∀ apiUrl params net w,
      answer net apiUrl (SendEmail params) =
        FetchResolves (Response.make 400 (Normal (JObj [("error", JStr "bad subject")]))) →
      ∃ w', run (UnisenderGo.sendEmail apiUrl params) net w =
              (Normal [("success", Some (JBool false)); ("error", Some (JStr "bad subject"))], w') ∧
            error w' = JStr "bad subject").
Proof.
  split.
  - intros apiUrl a net w resp data Ha Hok Hj.
    destruct (json_null_dec data) as [->|Hd].
    + eexists _, _. split; [by eapply call_null_body|].
      split; [reflexivity|]. intros v Hv. discriminate Hv.
    + eexists _, _. split; [by eapply call_not_ok|].
      split; [reflexivity|]. intros v Hv. unfold failure, prop. cbn. by rewrite Hv.
  - intros apiUrl params net w Ha.
    eexists. split.
    + exact (call_not_ok apiUrl (SendEmail params) net w _ _ Ha eq_refl eq_refl
               ltac:(discriminate)).
    + reflexivity.
Qed.

Lemma C1_witness :
  ∃ r w', run (call sample_url (SendEmail sample_email))
              (replies 400 (JObj [("error", JStr "bad subject")])) after_failure = (Normal r, w') ∧
          prop r "success" = Some (JBool false) ∧
          prop r "error" = Some (JStr "bad subject").
Proof.
  destruct (proj1 C1_non_2xx_reports_server_error sample_url (SendEmail sample_email)
              (replies 400 (JObj [("error", JStr "bad subject")])) after_failure
              (Response.make 400 (Normal (JObj [("error", JStr "bad subject")])))
              (JObj [("error", JStr "bad subject")]) eq_refl eq_refl eq_refl)
    as (r & w' & Hrun & Hsuccess & Herror).
  exists r, w'. split; [exact Hrun|]. split; [exact Hsuccess|].
  apply Herror. reflexivity.
Defined.

(** C2 fails as stated: the text reported for a transport failure is the
    thrown [Error]'s own [message].  An unreachable endpoint whose [fetch]
    rejects with [TypeError: Failed to fetch] makes [sendEmail] resolve to
    [{success: false, error: "Failed to fetch"}], and a body that is not
    JSON reports the parser's message; neither is the text
    [Network error], and the two differ from each other. *)
Lemma C2_counterexample_exception_text_surfaces :
  let unparsable := "Unexpected token < in JSON at position 0" in
  let r1 := fst (run (call sample_url (SendEmail sample_email))
                     (unreachable (ErrorInstance "Failed to fetch")) after_failure) in
  let r2 := fst (run (call sample_url (SendEmail sample_email))
                     (replies_garbage 200 (ErrorInstance unparsable)) after_failure) in
  transport_failure (unreachable (ErrorInstance "Failed to fetch")) sample_url
    (SendEmail sample_email) (ErrorInstance "Failed to fetch") ∧
  r1 = Normal (failure (Some (JStr "Failed to fetch"))) ∧
  r2 = Normal (failure (Some (JStr unparsable))) ∧
  r1 ≠ Normal (failure (Some (JStr "Network error"))) ∧
  r1 ≠ r2.
Proof.
  cbv zeta. split; [by left|].
  split; [reflexivity|]. split; [reflexivity|]. split; discriminate.
Qed.

(** C2, amended.  For every hook action, when the network call or the JSON
    parsing throws, the promise resolves to [{success: false, error}] where
    [error] is the [message] of the thrown value when it is an [Error]
    instance and the generic text [Network error] otherwise; the hook's
    [error] state holds the same text and [isLoading] is [false]. *)
Theorem C2_transport_failure_reports_thrown_message apiUrl a net w e :
  transport_failure net apiUrl a e →
  ∃ text w',
    run (call apiUrl a) net w = (Normal [("success", Some (JBool false)); ("error", Some (JStr text))], w') ∧
    error w' = JStr text ∧ isLoading w' = false ∧
    (∀ m, e = ErrorInstance m → text = m) ∧
    (∀ v, e = NonError v → text = "Network error").
Proof.
  intros Ht. exists (message_of e). eexists. split.
  - destruct Ht as [Ha|(resp & Ha & Hj)].
    + by apply call_fetch_rejects.
    + by eapply call_json_rejects.
  - repeat split; by intros ? ->.
Qed.

Lemma C2_witness :
  ∃ text w',
    run (call sample_url (Unsubscribe "a@b.com")) (unreachable (NonError (Some (JStr "offline"))))
        after_failure
      = (Normal [("success", Some (JBool false)); ("error", Some (JStr text))], w') ∧
    error w' = JStr text ∧ isLoading w' = false ∧ text = "Network error".
Proof.
  destruct (C2_transport_failure_reports_thrown_message sample_url (Unsubscribe "a@b.com")
              (unreachable (NonError (Some (JStr "offline")))) after_failure
              (NonError (Some (JStr "offline"))) (or_introl eq_refl))
    as (text & w' & Hrun & Herror & Hloading & _ & Hgeneric).
  exists text, w'. repeat split; try assumption.
  exact (Hgeneric _ eq_refl).
Defined.

(** C3 fails as stated: a 2xx response whose body parses to the JSON
    document [null] does not yield [success === true].  [subscribe] with
    [{email: "a@b.com"}] answered by status 200 and body [null] throws on
    reading [data.person_id], and the [catch] branch resolves to a failure
    and sets the [error] state. *)
Lemma C3_counterexample_null_body :
  ∃ resp data r w',
    answer (replies 200 JNull) sample_url (Subscribe sample_subscriber) = FetchResolves resp ∧
    Response.ok resp = true ∧
    Response.json resp = Normal data ∧
    run (call sample_url (Subscribe sample_subscriber)) (replies 200 JNull) after_failure
      = (Normal r, w') ∧
    prop r "success" = Some (JBool false) ∧
    error w' = JStr "Cannot read properties of null (reading 'person_id')".
Proof. eexists _, _, _, _. repeat split; reflexivity. Qed.

(** C3, amended.  For every hook action and every input, when the response
    has a 2xx status and its body parses to a JSON value other than [null],
    the resolved result has [success === true]; after any call, successful
    or not, [isLoading] is [false]; in particular [subscribe] with
    [{email: "a@b.com"}] answered with [{success: true, person_id: 42}]
    resolves to [{success: true, person_id: 42}] with final hook state
    [{isLoading: false, error: null}]. *)
Theorem C3_success_result_and_loading_reset :
  (∀ apiUrl a net w resp data,
      answer net apiUrl a = FetchResolves resp →
      Response.ok resp = true →
      Response.json resp = Normal data →
      data ≠ JNull →
      ∃ r w', run (call apiUrl a) net w = (Normal r, w') ∧
              prop r "success" = Some (JBool true)) ∧
  (∀ apiUrl a net w, isLoading (snd (run (call apiUrl a) net w)) = false) ∧
  (∀ apiUrl net w,
      answer net apiUrl (Subscribe sample_subscriber) =
        FetchResolves (Response.make 200
          (Normal (JObj [("success", JBool true); ("person_id", JNum 42)]))) →
      ∃ w', run (Unisender.subscribe apiUrl sample_subscriber) net w =
              (Normal [("success", Some (JBool true)); ("person_id", Some (JNum 42))], w') ∧
            isLoading w' = false ∧ error w' = JNull).
Proof.
  split; [|split].
  - intros apiUrl a net w resp data Ha Hok Hj Hd.
    eexists _, _. split; [by eapply call_ok|reflexivity].
  - intros apiUrl a net w.
    destruct (call_settles apiUrl a net w) as (r & outcome & err & -> & _). reflexivity.
  - intros apiUrl net w Ha. eexists. split.
    + exact (call_ok apiUrl (Subscribe sample_subscriber) net w _ _ Ha eq_refl eq_refl
               ltac:(discriminate)).
    + split; reflexivity.
Qed.

Lemma C3_witness :
  ∃ r w', run (call sample_url (SendTest sample_test))
              (replies 204 (JObj [("success", JBool true); ("job_id", JStr "job-1")]))
              after_failure = (Normal r, w') ∧
          prop r "success" = Some (JBool true).
Proof.
  apply (proj1 C3_success_result_and_loading_reset sample_url (SendTest sample_test)
           (replies 204 (JObj [("success", JBool true); ("job_id", JStr "job-1")]))
           after_failure
           (Response.make 204 (Normal (JObj [("success", JBool true); ("job_id", JStr "job-1")])))
           (JObj [("success", JBool true); ("job_id", JStr "job-1")]));
    (reflexivity || discriminate).
Defined.

(** C4.  For every hook action and every input the promise resolves: no
    exception escapes.  Every failure, transport or application-level, is
    turned into a resolved object with exactly the keys [success] and
    [error] and with [success === false], and the hook's [error] state,
    cleared at the start of the call, is set by [setError] to a value other
    than [null]. *)
Theorem C4_never_rejects apiUrl a net w :
  ∃ r w',
    run (call apiUrl a) net w = (Normal r, w') ∧
    (((∃ e, transport_failure net apiUrl a e) ∨ application_failure net apiUrl a) →
     keys r = ["success"; "error"] ∧
     prop r "success" = Some (JBool false) ∧
     error w' ≠ JNull ∧
     ∃ evs, added w w' evs ∧ In (EvSetError (error w')) evs).
Proof.
  assert (Hfail : ∀ e err, err ≠ JNull →
            keys (failure e) = ["success"; "error"] ∧
            prop (failure e) "success" = Some (JBool false) ∧
            error (after_call w apiUrl a [EvSetError err] err) ≠ JNull ∧
            ∃ evs, added w (after_call w apiUrl a [EvSetError err] err) evs ∧
                   In (EvSetError (error (after_call w apiUrl a [EvSetError err] err))) evs).
  { intros e err Herr. repeat split; [exact Herr|].
    eexists. split; [reflexivity|]. cbn. tauto. }
  destruct (answer net apiUrl a) as [e|resp] eqn:Ha.
  - eexists _, _. split; [by apply call_fetch_rejects|]. intros _. by apply Hfail.
  - destruct (Response.json resp) as [data|e] eqn:Hj.
    + destruct (json_null_dec data) as [->|Hd].
      * eexists _, _. split; [by eapply call_null_body|]. intros _. by apply Hfail.
      * destruct (Response.ok resp) eqn:Hok.
        -- eexists _, _. split; [by eapply call_ok|].
           intros [(e & [He|(resp' & He & Hj')])|(resp' & data' & He & Hok' & _)];
             unfold answer in *; congruence.
        -- eexists _, _. split; [by eapply call_not_ok|]. intros _.
           apply Hfail, or_else_not_null.
    + eexists _, _. split; [by eapply call_json_rejects|]. intros _. by apply Hfail.
Qed.

Lemma C4_witness :
  ∃ r w',
    run (call sample_url (SendTest sample_test)) (replies 502 (JStr "Bad Gateway")) after_failure
      = (Normal r, w') ∧
    keys r = ["success"; "error"] ∧
    prop r "success" = Some (JBool false) ∧
    error w' ≠ JNull ∧
    ∃ evs, added after_failure w' evs ∧ In (EvSetError (error w')) evs.
Proof.
  destruct (C4_never_rejects sample_url (SendTest sample_test)
              (replies 502 (JStr "Bad Gateway")) after_failure)
    as (r & w' & Hrun & Hfailure).
  exists r, w'. split; [exact Hrun|].
  apply Hfailure. right.
  exists (Response.make 502 (Normal (JStr "Bad Gateway"))), (JStr "Bad Gateway").
  repeat split.
Defined.

(** C6.  Every invocation of a hook action performs exactly one network
    call, whatever the endpoint does: a [POST] to the configured URL
    followed by [?action=] and the action's discriminator ([subscribe],
    [unsubscribe], [send], [send-template], [test]), with the header
    [Content-Type: application/json] and the JSON serialisation of the
    action's parameters as body.  Nothing is retried. *)
Theorem C6_exactly_one_post_request apiUrl a net w :
  ∃ evs,
    added w (snd (run (call apiUrl a) net w)) evs ∧
    List.filter is_fetch evs =
      [EvFetch (apiUrl +:+ "?action=" +:+
                match a with
                | Subscribe _ => "subscribe"
                | Unsubscribe _ => "unsubscribe"
                | SendEmail _ => "send"
                | SendTemplate _ => "send-template"
                | SendTest _ => "test"
                end)
         {| method := "POST";
            headers := [("Content-Type", "application/json")];
            body := JSON_stringify_object (payload a) |}].
Proof.
  destruct (call_settles apiUrl a net w) as (r & outcome & err & -> & Hcases).
  eexists. split; [reflexivity|].
  destruct Hcases as [(_ & -> & _)|(e & _ & -> & _)]; reflexivity.
Qed.

(** C7.  Every hook action starts by [setIsLoading(true)] and
    [setError(null)] and only then issues its network request, whatever the
    state left by the previous call. *)
Theorem C7_error_cleared_before_request apiUrl a net w :
  ∃ rest,
    added w (snd (run (call apiUrl a) net w))
      ([EvSetIsLoading true; EvSetError JNull;
        EvFetch (request_url apiUrl a) (request_init a)] ++ rest).
Proof.
  destruct (call_settles apiUrl a net w) as (r & outcome & err & -> & _).
  eexists. reflexivity.
Qed.

(** C9 fails as stated: a response with an ok status and the parseable
    body [null] does not give [success === true] and does not leave the
    [error] state [null].  [sendTest] answered by status 200 and body
    [null] resolves to a failure carrying the [TypeError] text. *)
Lemma C9_counterexample_null_body :
  ∃ resp data r w',
    answer (replies 200 JNull) sample_url (SendTest sample_test) = FetchResolves resp ∧
    Response.ok resp = true ∧
    Response.json resp = Normal data ∧
    run (call sample_url (SendTest sample_test)) (replies 200 JNull) after_failure
      = (Normal r, w') ∧
    prop r "success" ≠ Some (JBool true) ∧
    error w' ≠ JNull.
Proof. eexists _, _, _, _. repeat split; (reflexivity || discriminate). Qed.

(** C9, amended.  Success of every hook action is decided by the HTTP
    status alone: for any response with an ok status and a body that parses
    to a JSON value other than [null], the resolved result is
    [{success: true}] extended with the one property the action copies from
    the body, and the hook's [error] state stays [null], whatever the body
    holds under [success] or [error]; these are never read. *)
Theorem C9_success_decided_by_status apiUrl a net w resp data :
  answer net apiUrl a = FetchResolves resp →
  Response.ok resp = true →
  Response.json resp = Normal data →
  data ≠ JNull →
  ∃ w',
    run (call apiUrl a) net w =
      (Normal [("success", Some (JBool true));
               (success_field a, field data (success_field a))], w') ∧
    error w' = JNull.
Proof.
  intros Ha Hok Hj Hd. eexists. split; [by eapply call_ok|reflexivity].
Qed.

Lemma C9_witness :
  ∃ w',
    run (call sample_url (SendTest sample_test))
        (replies 200 (JObj [("success", JBool false); ("error", JStr "quota exceeded")]))
        after_failure
      = (Normal [("success", Some (JBool true)); ("job_id", None)], w') ∧
    error w' = JNull.
Proof.
  apply (C9_success_decided_by_status sample_url (SendTest sample_test)
           (replies 200 (JObj [("success", JBool false); ("error", JStr "quota exceeded")]))
           after_failure
           (Response.make 200
              (Normal (JObj [("success", JBool false); ("error", JStr "quota exceeded")])))
           (JObj [("success", JBool false); ("error", JStr "quota exceeded")]));
    (reflexivity || discriminate).
Defined.

(** C10 fails as stated: the body [null] parses and has no [error] field,
    yet after [sendTemplate] is answered by status 500 and body [null] the
    displayed error is not the fallback text and the returned [error] is not
    [undefined]; both are the text of the [TypeError]. *)
Lemma C10_counterexample_null_body :
  ∃ resp data r w',
    answer (replies 500 JNull) sample_url (SendTemplate sample_template) = FetchResolves resp ∧
    Response.ok resp = false ∧
    Response.json resp = Normal data ∧
    field data "error" = None ∧
    run (call sample_url (SendTemplate sample_template)) (replies 500 JNull) after_failure
      = (Normal r, w') ∧
    error w' = JStr "Cannot read properties of null (reading 'error')" ∧
    error w' ≠ JStr "Send failed" ∧
    prop r "error" = Some (error w').
Proof. eexists _, _, _, _. repeat split; (reflexivity || discriminate). Qed.

(** C10, amended.  For every hook action, when the response is non-2xx and
    its body parses to a JSON value other than [null] that has no [error]
    field, the hook's [error] state is set to the fallback text of the
    action ([Subscribe failed], [Unsubscribe failed], [Send failed] for both
    [sendEmail] and [sendTemplate], [Test failed]) while the [error] of the
    resolved result is [undefined]: the displayed and the returned error
    differ. *)
Theorem C10_fallback_is_displayed_not_returned apiUrl a net w resp data :
  answer net apiUrl a = FetchResolves resp →
  Response.ok resp = false →
  Response.json resp = Normal data →
  data ≠ JNull →
  field data "error" = None →
  ∃ r w',
    run (call apiUrl a) net w = (Normal r, w') ∧
    error w' = JStr match a with
                    | Subscribe _ => "Subscribe failed"
                    | Unsubscribe _ => "Unsubscribe failed"
                    | SendEmail _ | SendTemplate _ => "Send failed"
                    | SendTest _ => "Test failed"
                    end ∧
    prop r "success" = Some (JBool false) ∧
    prop r "error" = None.
Proof.
  intros Ha Hok Hj Hd Hnone. eexists _, _. split; [by eapply call_not_ok|].
  rewrite Hnone. destruct a; repeat split.
Qed.

Lemma C10_witness :
  ∃ r w',
    run (call sample_url (Unsubscribe "a@b.com"))
        (replies 404 (JObj [("detail", JStr "no such contact")])) after_failure = (Normal r, w') ∧
    error w' = JStr "Unsubscribe failed" ∧
    prop r "success" = Some (JBool false) ∧
    prop r "error" = None.
Proof.
  apply (C10_fallback_is_displayed_not_returned sample_url (Unsubscribe "a@b.com")
           (replies 404 (JObj [("detail", JStr "no such contact")])) after_failure
           (Response.make 404 (Normal (JObj [("detail", JStr "no such contact")])))
           (JObj [("detail", JStr "no such contact")]));
    (reflexivity || discriminate).
Defined.

(** * Lemmas on the banner *)

Import UnisenderTestButton.

(** The fuel of [trimStart] and [trimEnd] is enough: each round removes at
    least one byte, so after [length s] rounds no white space is left at the
    trimmed end. *)
Lemma strip_prefix_length p s s' :
  strip_prefix p s = Some s' →
  String.length s = (String.length p + String.length s')%nat.
Proof.
  revert s. induction p as [|a p IH]; intros s H; cbn in *.
  - by inversion H.
  - destruct s as [|b s]; [discriminate|].
    destruct (Ascii.eqb a b); [|discriminate]. cbn. f_equal. by apply IH.
Qed.

Lemma strip_any_shorter patterns s s' :
  Forall (fun p => p ≠ "") patterns →
  strip_any patterns s = Some s' → (String.length s' < String.length s)%nat.
Proof.
  induction 1 as [|p ps Hp _ IH]; cbn; [discriminate|].
  destruct (strip_prefix p s) as [r|] eqn:Hr; [|exact IH].
  intros [= ->]. apply strip_prefix_length in Hr.
  destruct p; [done|]. cbn in Hr. lia.
Qed.

Lemma strip_any_empty patterns :
  Forall (fun p => p ≠ "") patterns → strip_any patterns "" = None.
Proof.
  induction 1 as [|p ps Hp _ IH]; cbn; [done|].
  destruct p; [done|]. exact IH.
Qed.

Lemma strip_all_done patterns fuel s :
  Forall (fun p => p ≠ "") patterns →
  (String.length s ≤ fuel)%nat →
  strip_any patterns (strip_all fuel patterns s) = None.
Proof.
  intros Hne. revert s. induction fuel as [|fuel IH]; intros s Hlen; cbn.
  - destruct s; [by apply strip_any_empty|cbn in Hlen; lia].
  - destruct (strip_any patterns s) as [s'|] eqn:Hs; [|exact Hs].
    apply IH. apply (strip_any_shorter _ _ _ Hne) in Hs. lia.
Qed.

Lemma white_space_nonempty : Forall (fun p => p ≠ "") white_space.
Proof. repeat constructor; discriminate. Qed.

Lemma trimStart_done s : strip_any white_space (trimStart s) = None.
Proof. apply strip_all_done; [apply white_space_nonempty|done]. Qed.

Lemma settle_storage_free a o :
  ∃ b, prop (settle a o).1.1 "success" = Some (JBool b) ∧
       List.filter is_read (settle a o).1.2 = [] ∧
       List.filter is_write (settle a o).1.2 = [].
Proof.
  unfold settle. destruct o as [e|resp]; [by eexists|].
  destruct (Response.json resp) as [data|e]; [|by eexists].
  destruct data, (Response.ok resp); by eexists.
Qed.

Lemma sendTest_run apiUrl params net w :
  UnisenderGo.sendTest apiUrl params net w =
    (Normal (settle (SendTest params) (answer net apiUrl (SendTest params))).1.1,
     after_call w apiUrl (SendTest params)
       (settle (SendTest params) (answer net apiUrl (SendTest params))).1.2
       (settle (SendTest params) (answer net apiUrl (SendTest params))).2).
Proof. exact (call_run apiUrl (SendTest params) net w). Qed.

Lemma handleTest_effects p net w :
  ∃ evs,
    added w (snd (run (handleTest p) net w)) evs ∧
    List.filter is_read evs = [] ∧
    List.filter is_write evs =
      (if send_succeeds p net w then [EvSetItem (storageKey_of p) "true"] else []) ∧
    localStorage (snd (run (handleTest p) net w)) =
      (if send_succeeds p net w then <[storageKey_of p := "true"]> (localStorage w)
       else localStorage w) ∧
    timers (snd (run (handleTest p) net w)) =
      (if send_succeeds p net w then (timers w ++ [(now w + 3000, HideBanner)])%list
       else timers w) ∧
    now (snd (run (handleTest p) net w)) = now w ∧
    isConfigured (snd (run (handleTest p) net w)) = isConfigured w.
Proof.
  unfold send_succeeds, run, handleTest, bind, readEmail. cbn [email].
  destruct (String.eqb (trim (email w)) "") eqn:Hempty.
  { exists []. unfold added. cbn. rewrite app_nil_r. done. }
  destruct (includes (email w) "@") eqn:Hat.
  2: { exists []. unfold added. cbn. rewrite app_nil_r. done. }
  cbn [negb andb setStatus setMessage].
  rewrite !sendTest_run. cbn [fst snd].
  destruct (settle_storage_free (SendTest (UnisenderGo.SendTestParams.make (trim (email w))))
              (answer net (apiUrl p)
                 (SendTest (UnisenderGo.SendTestParams.make (trim (email w))))))
    as (b & Hb & Hr & Hw).
  rewrite Hb. destruct b; cbn.
  - eexists. split; [unfold added; cbn; rewrite <- !app_assoc; reflexivity|].
    rewrite !List.filter_app. cbn [List.filter is_read is_write].
    rewrite !List.filter_app, Hr, Hw. done.
  - eexists. split; [unfold added; cbn; reflexivity|].
    cbn [List.filter is_read is_write].
    rewrite !List.filter_app, Hr, Hw. done.
Qed.

Lemma render_None w : render w = None ↔ isConfigured w = true.
Proof. unfold render. destruct (isConfigured w); split; congruence. Qed.

Lemma fire_all_isConfigured (l : list (Z * timer_callback)) w :
  isConfigured (fold_left (fun w' timer => fire (snd timer) w') l w) =
    isConfigured w || match l with [] => false | _ :: _ => true end.
Proof.
  revert w. induction l as [|[t cb] l IH]; intros w; cbn [fold_left].
  - by rewrite orb_false_r.
  - rewrite IH. destruct cb. cbn. by rewrite orb_true_r.
Qed.

Lemma advance_isConfigured ms w :
  isConfigured (advance ms w) =
    isConfigured w ||
    match List.filter (due (now w + ms)) (timers w) with [] => false | _ :: _ => true end.
Proof. unfold advance. by rewrite fire_all_isConfigured. Qed.

Lemma fire_all_frame (l : list (Z * timer_callback)) w :
  log (fold_left (fun w' timer => fire (snd timer) w') l w) = log w ∧
  localStorage (fold_left (fun w' timer => fire (snd timer) w') l w) = localStorage w.
Proof.
  revert w. induction l as [|[t cb] l IH]; intros w; cbn [fold_left]; [done|].
  destruct (IH (fire (snd (t, cb)) w)) as [-> ->]. by destruct cb.
Qed.

Lemma call_storage_free apiUrl a net w :
  ∃ evs,
    added w (snd (run (call apiUrl a) net w)) evs ∧
    List.filter is_read evs = [] ∧
    List.filter is_write evs = [] ∧
    localStorage (snd (run (call apiUrl a) net w)) = localStorage w.
Proof.
  rewrite call_run.
  destruct (settle_storage_free a (answer net apiUrl a)) as (b & _ & Hr & Hw).
  eexists. split; [reflexivity|].
  cbn [List.filter is_read is_write app].
  rewrite !List.filter_app, Hr, Hw. done.
Qed.

(** C5 fails as stated: with the [forceShow] prop set the banner renders
    although the flag stored under its key is the string [true]. *)
Lemma C5_counterexample_forceShow :
  let stored : gmap string string := {[ "unisender_configured" := "true" ]} in
  let w := snd (run (mount forced_props) accepting (initial stored 0)) in
  stored !! storageKey_of forced_props = Some "true" ∧ render w ≠ None.
Proof. cbv zeta. split; [reflexivity|]. vm_compute. discriminate. Qed.

(** C5, amended.  Once mounted, the banner renders (is non-null) exactly
    when the flag stored under its key is absent or not the string [true],
    or the [forceShow] prop is set.  After a successful test send the value
    [true] is stored under the key and the banner is hidden 3 seconds
    later; when no earlier hide timer is pending it stays rendered until
    then. *)
Theorem C5_banner_visibility :
  (∀ p stored clock net,
      render (snd (run (mount p) net (initial stored clock))) ≠ None ↔
      (stored !! storageKey_of p ≠ Some "true" ∨ forceShow_of p = true)) ∧
  (∀ p net w,
      send_succeeds p net w = true →
      localStorage (snd (run (handleTest p) net w)) !! storageKey_of p = Some "true" ∧
      render (advance 3000 (snd (run (handleTest p) net w))) = None ∧
      (render w ≠ None → timers w = [] →
       ∀ ms, 0 ≤ ms < 3000 → render (advance ms (snd (run (handleTest p) net w))) ≠ None)).
Proof.
  split.
  - intros p stored clock net. rewrite render_None.
    unfold run, mount, effect, bind, getItem, setIsConfigured, initial. cbn.
    destruct (forceShow_of p); case_bool_decide as Hflag; cbn; split; intros Hshown;
      try congruence; try tauto; try (by left); try (by right).
    destruct Hshown; congruence.
  - intros p net w Hok.
    destruct (handleTest_effects p net w) as (evs & _ & _ & _ & Hls & Htm & Hnow & Hconf).
    rewrite Hok in Hls, Htm. split; [|split].
    + rewrite Hls. apply lookup_insert_eq.
    + apply render_None. rewrite advance_isConfigured, Htm, Hnow, List.filter_app.
      cbn [List.filter]. unfold due at 2. cbn [fst]. rewrite Z.leb_refl.
      destruct (List.filter _ (timers w)); cbn; by rewrite orb_true_r.
    + intros Hshown Hnone ms Hms. rewrite render_None in *.
      rewrite advance_isConfigured, Htm, Hnow, Hnone, Hconf.
      cbn [app List.filter]. unfold due. cbn [fst].
      destruct (Z.leb_spec (now w + 3000) (now w + ms)); [lia|].
      rewrite orb_false_r. exact Hshown.
Qed.

Lemma C5_witness :
  localStorage (snd (run (handleTest sample_props) accepting ready))
    !! storageKey_of sample_props = Some "true" ∧
  render (advance 3000 (snd (run (handleTest sample_props) accepting ready))) = None ∧
  render (advance 2999 (snd (run (handleTest sample_props) accepting ready))) ≠ None.
Proof.
  destruct (proj2 C5_banner_visibility sample_props accepting ready eq_refl)
    as (Hstored & Hhidden & Hshown).
  split; [exact Hstored|]. split; [exact Hhidden|].
  apply Hshown; [vm_compute; discriminate|reflexivity|lia].
Defined.

(** C8 fails as stated: the key is neither written only once nor read
    only once.  On a mounted banner with the address [a@b.com] typed, two
    test sends that both succeed (the second within the 3 seconds during
    which the banner is still shown) write the key twice, and a render
    whose [forceShow] prop changed reads it a second time. *)
Lemma C8_counterexample_repeated_access :
  let w1 := snd (run (handleTest sample_props) accepting ready) in
  let w2 := snd (run (handleTest sample_props) accepting w1) in
  let w3 := snd (run (rerender sample_props forced_props) accepting w2) in
  render w1 ≠ None ∧
  List.filter is_write (log w2) =
    [EvSetItem "unisender_configured" "true"; EvSetItem "unisender_configured" "true"] ∧
  List.filter is_read (log w3) =
    [EvGetItem "unisender_configured"; EvGetItem "unisender_configured"].
Proof. cbv zeta. split; [vm_compute; discriminate|]. split; reflexivity. Qed.

(** C8, amended.  The local-storage key is read once by every run of the
    mount effect, which is at mount and again at each render whose
    [storageKey] or [forceShow] changed, and written once by every test
    send that succeeds, not only the first; nothing else reads or writes
    local storage: not a test send that is refused or fails, not a hook
    action, not typing into the input, not the hide timer. *)
Theorem C8_storage_access :
  (∀ p net stored clock,
      log (snd (run (mount p) net (initial stored clock))) = [EvGetItem (storageKey_of p)] ∧
      localStorage (snd (run (mount p) net (initial stored clock))) = stored) ∧
  (∀ old new net w,
      ∃ evs,
        added w (snd (run (rerender old new) net w)) evs ∧
        evs = (if bool_decide (storageKey_of old = storageKey_of new)
                  && bool_decide (forceShow_of old = forceShow_of new)
               then [] else [EvGetItem (storageKey_of new)]) ∧
        localStorage (snd (run (rerender old new) net w)) = localStorage w) ∧
  (∀ p net w,
      ∃ evs,
        added w (snd (run (handleTest p) net w)) evs ∧
        List.filter is_read evs = [] ∧
        List.filter is_write evs =
          (if send_succeeds p net w then [EvSetItem (storageKey_of p) "true"] else []) ∧
        localStorage (snd (run (handleTest p) net w)) =
          (if send_succeeds p net w then <[storageKey_of p := "true"]> (localStorage w)
           else localStorage w)) ∧
  (∀ apiUrl a net w,
      ∃ evs,
        added w (snd (run (call apiUrl a) net w)) evs ∧
        List.filter is_read evs = [] ∧
        List.filter is_write evs = [] ∧
        localStorage (snd (run (call apiUrl a) net w)) = localStorage w) ∧
  (∀ value net w,
      log (snd (run (onChange value) net w)) = log w ∧
      localStorage (snd (run (onChange value) net w)) = localStorage w) ∧
  (∀ ms w,
      log (advance ms w) = log w ∧
      localStorage (advance ms w) = localStorage w).
Proof.
  split; [|split; [|split; [|split; [|split]]]].
  - intros. split; reflexivity.
  - intros old new net w. unfold run, rerender.
    destruct (_ && _).
    + exists []. unfold added. cbn. by rewrite app_nil_r.
    + eexists. repeat split.
  - intros p net w.
    destruct (handleTest_effects p net w) as (evs & Hlog & Hr & Hw & Hls & _).
    by exists evs.
  - apply call_storage_free.
  - intros. split; reflexivity.
  - intros ms w. unfold advance.
    by destruct (fire_all_frame (List.filter (due (now w + ms)) (timers w))
                   (World (isLoading w) (error w) (isConfigured w) (email w) (status w)
                      (message w) (localStorage w)
                      (List.filter (fun timer => negb (due (now w + ms) timer)) (timers w))
                      (now w + ms) (log w))) as [-> ->].
Qed.

(** * Further properties of the hooks *)

(** X1.  For every hook action and every behaviour of the endpoint, the
    resolved result and the displayed state agree on the outcome: [success]
    is [true] exactly when the [error] state ends as [null], and [false]
    exactly when it ends as something else. *)
Theorem X1_success_iff_error_cleared apiUrl a net w :
  ∃ r w',
    run (call apiUrl a) net w = (Normal r, w') ∧
    (prop r "success" = Some (JBool true) ↔ error w' = JNull) ∧
    (prop r "success" = Some (JBool false) ↔ error w' ≠ JNull).
Proof.
  destruct (call_settles apiUrl a net w)
    as (r & outcome & err & Hrun & [(Hs & _ & ->)|(e & -> & _ & Herr)]).
  - exists r, (after_call w apiUrl a outcome JNull). split; [exact Hrun|].
    cbn [error after_call]. rewrite Hs. split; split; done.
  - eexists _, _. split; [exact Hrun|]. cbn [error after_call].
    split; split; done.
Qed.

(** X2.  A call does not depend on what earlier calls left behind: started
    on any two pages, the same action against the same endpoint resolves to
    the same result and ends with the same [isLoading] and [error]. *)
Theorem X2_call_forgets_history apiUrl a net w1 w2 :
  fst (run (call apiUrl a) net w1) = fst (run (call apiUrl a) net w2) ∧
  isLoading (snd (run (call apiUrl a) net w1)) = isLoading (snd (run (call apiUrl a) net w2)) ∧
  error (snd (run (call apiUrl a) net w1)) = error (snd (run (call apiUrl a) net w2)).
Proof. rewrite !call_run. done. Qed.

(** X3.  Whenever the [error] of the resolved result is truthy, the [error]
    state shown by the hook is that same value: the two can differ only
    when the returned [error] is [undefined] or falsy. *)
Theorem X3_truthy_returned_error_is_displayed apiUrl a net w :
  ∃ r w',
    run (call apiUrl a) net w = (Normal r, w') ∧
    (truthy (prop r "error") = true → Some (error w') = prop r "error").
Proof.
  rewrite call_run. eexists _, _. split; [reflexivity|].
  cbn [error after_call]. unfold settle.
  destruct (answer net apiUrl a) as [e|resp]; [done|].
  destruct (Response.json resp) as [data|e]; [|done].
  assert (Hnot_ok : ∀ v : jsval,
            truthy (prop (failure v) "error") = true →
            Some (or_else v (fallback a)) = prop (failure v) "error").
  { intros v. change (prop (failure v) "error") with v.
    unfold or_else. destruct v as [j|]; [|done]. by intros ->. }
  destruct data, (Response.ok resp); cbn [fst snd]; try done; try apply Hnot_ok.
  all: destruct a; done.
Qed.

(** X4.  A non-2xx response whose body has an [error] property with a falsy
    value (the empty string, [0], [false], [null]) is displayed with the
    action's fallback text, while the resolved result carries the falsy
    value itself. *)
Theorem X4_falsy_error_field_shows_fallback apiUrl a net w resp data v :
  answer net apiUrl a = FetchResolves resp →
  Response.ok resp = false →
  Response.json resp = Normal data →
  field data "error" = Some v →
  truthy (Some v) = false →
  ∃ r w',
    run (call apiUrl a) net w = (Normal r, w') ∧
    prop r "success" = Some (JBool false) ∧
    prop r "error" = Some v ∧
    error w' = JStr (fallback a).
Proof.
  intros Ha Hok Hj Hf Hv.
  assert (Hd : data ≠ JNull) by (intros ->; discriminate Hf).
  eexists _, _. split; [by eapply call_not_ok|].
  rewrite Hf. cbn [error after_call]. unfold or_else. rewrite Hv. done.
Qed.

Lemma X4_witness :
  ∃ r w',
    run (call sample_url (SendEmail sample_email)) (replies 422 (JObj [("error", JStr "")]))
        after_failure = (Normal r, w') ∧
    prop r "success" = Some (JBool false) ∧
    prop r "error" = Some (JStr "") ∧
    error w' = JStr "Send failed".
Proof.
  apply (X4_falsy_error_field_shows_fallback sample_url (SendEmail sample_email)
           (replies 422 (JObj [("error", JStr "")])) after_failure
           (Response.make 422 (Normal (JObj [("error", JStr "")])))
           (JObj [("error", JStr "")]) (JStr ""));
    reflexivity.
Defined.

(** X5.  A hook action changes nothing on the page but its own [isLoading]
    and [error]: the banner's state, local storage, the pending timers and
    the clock are as before. *)
Theorem X5_call_touches_only_hook_state apiUrl a net w :
  isConfigured (snd (run (call apiUrl a) net w)) = isConfigured w ∧
  email (snd (run (call apiUrl a) net w)) = email w ∧
  status (snd (run (call apiUrl a) net w)) = status w ∧
  message (snd (run (call apiUrl a) net w)) = message w ∧
  localStorage (snd (run (call apiUrl a) net w)) = localStorage w ∧
  timers (snd (run (call apiUrl a) net w)) = timers w ∧
  now (snd (run (call apiUrl a) net w)) = now w.
Proof. rewrite call_run. done. Qed.

(** X6.  [isLoading] brackets the call: [setIsLoading(true)] is the first
    effect, [setIsLoading(false)] the last, on every path including the
    [catch] branch, and [isLoading] is not set in between. *)
Theorem X6_loading_brackets_the_call apiUrl a net w :
  ∃ between,
    added w (snd (run (call apiUrl a) net w))
      ([EvSetIsLoading true] ++ between ++ [EvSetIsLoading false]) ∧
    Forall (fun e => ∀ b, e ≠ EvSetIsLoading b) between.
Proof.
  destruct (call_settles apiUrl a net w) as (r & outcome & err & -> & Hcases).
  exists ([EvSetError JNull; EvFetch (request_url apiUrl a) (request_init a)] ++ outcome)%list.
  split.
  - unfold added. cbn. by rewrite <- ?app_assoc.
  - destruct Hcases as [(_ & -> & _)|(e & _ & -> & _)]; repeat constructor; done.
Qed.

(** * Further properties of the banner *)

Lemma settle_fetch_free a o : List.filter is_fetch (settle a o).1.2 = [].
Proof.
  unfold settle. destruct o as [e|resp]; [done|].
  destruct (Response.json resp) as [data|e]; [|done].
  destruct data, (Response.ok resp); done.
Qed.

(** The path of [handleTest] on which the request is sent. *)
Lemma handleTest_sent p net w :
  trim (email w) ≠ "" →
  includes (email w) "@" = true →
  run (handleTest p) net w =
    let a := SendTest (UnisenderGo.SendTestParams.make (trim (email w))) in
    let s := settle a (answer net (apiUrl p) a) in
    let sent :=
      (log w ++ [EvSetIsLoading true; EvSetError JNull;
                 EvFetch (request_url (apiUrl p) a) (request_init a)]
             ++ s.1.2 ++ [EvSetIsLoading false])%list in
    if truthy (prop s.1.1 "success") then
      (Normal tt,
       World false s.2 (isConfigured w) (email w) "success"
         (JStr "Тестовое письмо отправлено! Проверьте почту.")
         (<[storageKey_of p := "true"]> (localStorage w))
         (timers w ++ [(now w + 3000, HideBanner)]) (now w)
         (sent ++ [EvSetItem (storageKey_of p) "true"; EvSetTimeout HideBanner 3000]))
    else
      (Normal tt,
       World false s.2 (isConfigured w) (email w) "error"
         (or_else (prop s.1.1 "error") "Ошибка отправки")
         (localStorage w) (timers w) (now w) sent).
Proof.
  intros Hblank Hat. apply String.eqb_neq in Hblank.
  unfold run, handleTest, bind, readEmail. cbn [email].
  rewrite Hblank, Hat.
  cbn [negb setStatus setMessage
       isLoading error isConfigured email status message localStorage timers now log].
  rewrite sendTest_run. cbv zeta.
  set (s := settle _ _).
  destruct (truthy (prop s.1.1 "success"));
    cbn [setItem setStatus setMessage after_call
         isLoading error isConfigured email status message localStorage timers now log];
    unfold setTimeout, emit;
    cbn [isLoading error isConfigured email status message localStorage timers now log];
    rewrite <- ?app_assoc; reflexivity.
Qed.

(** X7.  A test send with an empty or all-blank address is refused before
    anything is sent: the promise resolves, the status becomes [error] with
    the message asking for an address, and nothing else on the page changes
    (no request, no storage access, no timer, no change of the hook's
    state). *)
Theorem X7_blank_address_refused p net w :
  trim (email w) = "" →
  run (handleTest p) net w =
    (Normal tt,
     World (isLoading w) (error w) (isConfigured w) (email w) "error"
       (JStr "Введите email") (localStorage w) (timers w) (now w) (log w)).
Proof.
  intros Hblank. unfold run, handleTest, bind, readEmail. cbn [email].
  rewrite Hblank. reflexivity.
Qed.

Lemma X7_witness :
  run (handleTest sample_props) accepting
      (snd (run (onChange (bytes [32; 9; 32]%N)) accepting ready)) =
    (Normal tt,
     World false JNull false (bytes [32; 9; 32]%N) "error" (JStr "Введите email") ∅ [] 0
       [EvGetItem "unisender_configured"]).
Proof.
  apply (X7_blank_address_refused sample_props accepting
           (snd (run (onChange (bytes [32; 9; 32]%N)) accepting ready))).
  reflexivity.
Defined.

(** X8.  A test send with an address that is not blank but holds no [@] is
    refused in the same way, with the message about the address format. *)
Theorem X8_address_without_at_refused p net w :
  trim (email w) ≠ "" →
  includes (email w) "@" = false →
  run (handleTest p) net w =
    (Normal tt,
     World (isLoading w) (error w) (isConfigured w) (email w) "error"
       (JStr "Неверный формат email") (localStorage w) (timers w) (now w) (log w)).
Proof.
  intros Hblank Hat. apply String.eqb_neq in Hblank.
  unfold run, handleTest, bind, readEmail. cbn [email].
  rewrite Hblank, Hat. reflexivity.
Qed.

Lemma X8_witness :
  run (handleTest sample_props) accepting
      (snd (run (onChange "ann.example.org") accepting ready)) =
    (Normal tt,
     World false JNull false "ann.example.org" "error" (JStr "Неверный формат email") ∅ [] 0
       [EvGetItem "unisender_configured"]).
Proof.
  apply (X8_address_without_at_refused sample_props accepting
           (snd (run (onChange "ann.example.org") accepting ready)));
    [discriminate|reflexivity].
Defined.

(** X9.  An address that passes both checks leads to exactly one request:
    a [POST] to the [test] action whose body holds the address with the
    surrounding white space trimmed off, whatever the endpoint answers. *)
Theorem X9_test_sends_trimmed_address p net w :
  trim (email w) ≠ "" →
  includes (email w) "@" = true →
  ∃ evs,
    added w (snd (run (handleTest p) net w)) evs ∧
    List.filter is_fetch evs =
      [EvFetch (apiUrl p +:+ "?action=test")
         {| method := "POST";
            headers := [("Content-Type", "application/json")];
            body := JSON_stringify_object [("to_email", Some (JStr (trim (email w))))] |}].
Proof.
  intros Hblank Hat. rewrite (handleTest_sent p net w Hblank Hat). cbv zeta.
  pose proof (settle_fetch_free
                (SendTest (UnisenderGo.SendTestParams.make (trim (email w))))
                (answer net (apiUrl p)
                   (SendTest (UnisenderGo.SendTestParams.make (trim (email w)))))) as Hf.
  destruct (truthy _); eexists;
    (split; [unfold added; cbn [snd log]; rewrite <- ?app_assoc; reflexivity|]);
    cbn [List.filter is_fetch app]; rewrite ?List.filter_app, Hf; reflexivity.
Qed.

Lemma X9_witness :
  ∃ evs,
    added (snd (run (onChange " a@b.com ") accepting ready))
      (snd (run (handleTest sample_props) (unreachable (ErrorInstance "Failed to fetch"))
              (snd (run (onChange " a@b.com ") accepting ready)))) evs ∧
    List.filter is_fetch evs =
      [EvFetch (sample_url +:+ "?action=test")
         {| method := "POST";
            headers := [("Content-Type", "application/json")];
            body := JSON_stringify_object [("to_email", Some (JStr "a@b.com"))] |}].
Proof.
  apply (X9_test_sends_trimmed_address sample_props
           (unreachable (ErrorInstance "Failed to fetch"))
           (snd (run (onChange " a@b.com ") accepting ready)));
    [discriminate|reflexivity].
Defined.


Lemma settle_success_clean a o :
  truthy (prop (settle a o).1.1 "success") = true →
  (settle a o).1.2 = [] ∧ (settle a o).2 = JNull.
Proof.
  unfold settle. destruct o as [e|resp]; [done|].
  destruct (Response.json resp) as [data|e]; [|done].
  destruct data, (Response.ok resp); done.
Qed.

Lemma send_succeeds_spec p net w :
  send_succeeds p net w = true ↔
  trim (email w) ≠ "" ∧ includes (email w) "@" = true ∧
  truthy (prop (settle (SendTest (UnisenderGo.SendTestParams.make (trim (email w))))
                  (answer net (apiUrl p)
                     (SendTest (UnisenderGo.SendTestParams.make (trim (email w)))))).1.1
            "success") = true.
Proof.
  unfold send_succeeds, run. rewrite sendTest_run. cbn [fst].
  rewrite !andb_true_iff, negb_true_iff, String.eqb_neq. tauto.
Qed.

(** X11.  When the endpoint refuses the test send with a non-2xx status
    and a non-empty [error] text, the banner shows exactly that text as an
    error, the hook's [error] state holds it too, nothing is stored, no
    hide timer is started and the banner stays as it was. *)
Theorem X11_server_refusal_is_shown p net w resp data text :
  trim (email w) ≠ "" →
  includes (email w) "@" = true →
  answer net (apiUrl p) (SendTest (UnisenderGo.SendTestParams.make (trim (email w))))
    = FetchResolves resp →
  Response.ok resp = false →
  Response.json resp = Normal data →
  field data "error" = Some (JStr text) →
  text ≠ "" →
  status (snd (run (handleTest p) net w)) = "error" ∧
  message (snd (run (handleTest p) net w)) = JStr text ∧
  error (snd (run (handleTest p) net w)) = JStr text ∧
  localStorage (snd (run (handleTest p) net w)) = localStorage w ∧
  timers (snd (run (handleTest p) net w)) = timers w ∧
  isConfigured (snd (run (handleTest p) net w)) = isConfigured w.
Proof.
  intros Hblank Hat Ha Hok Hj Hf Htext. apply String.eqb_neq in Htext.
  rewrite (handleTest_sent p net w Hblank Hat). cbv zeta.
  unfold settle. rewrite Ha, Hj, Hok.
  destruct data; try discriminate Hf.
  cbn in Hf |- *. rewrite Hf. cbn. unfold or_else. cbn. rewrite Htext. done.
Qed.

Lemma X11_witness :
  status (snd (run (handleTest sample_props)
                 (replies 403 (JObj [("error", JStr "Invalid API key")])) ready)) = "error" ∧
  message (snd (run (handleTest sample_props)
                  (replies 403 (JObj [("error", JStr "Invalid API key")])) ready))
    = JStr "Invalid API key" ∧
  error (snd (run (handleTest sample_props)
                (replies 403 (JObj [("error", JStr "Invalid API key")])) ready))
    = JStr "Invalid API key" ∧
  localStorage (snd (run (handleTest sample_props)
                       (replies 403 (JObj [("error", JStr "Invalid API key")])) ready))
    = localStorage ready ∧
  timers (snd (run (handleTest sample_props)
                 (replies 403 (JObj [("error", JStr "Invalid API key")])) ready))
    = timers ready ∧
  isConfigured (snd (run (handleTest sample_props)
                       (replies 403 (JObj [("error", JStr "Invalid API key")])) ready))
    = isConfigured ready.
Proof.
  apply (X11_server_refusal_is_shown sample_props
           (replies 403 (JObj [("error", JStr "Invalid API key")])) ready
           (Response.make 403 (Normal (JObj [("error", JStr "Invalid API key")])))
           (JObj [("error", JStr "Invalid API key")]) "Invalid API key");
    (reflexivity || discriminate).
Defined.

(** X12.  When the endpoint refuses the test send with a non-2xx status
    and a body (other than [null]) without an [error] property, the banner
    shows its own generic text while the hook's [error] state holds the
    hook's fallback [Test failed]: the two error displays differ. *)
Theorem X12_refusal_without_text p net w resp data :
  trim (email w) ≠ "" →
  includes (email w) "@" = true →
  answer net (apiUrl p) (SendTest (UnisenderGo.SendTestParams.make (trim (email w))))
    = FetchResolves resp →
  Response.ok resp = false →
  Response.json resp = Normal data →
  data ≠ JNull →
  field data "error" = None →
  status (snd (run (handleTest p) net w)) = "error" ∧
  message (snd (run (handleTest p) net w)) = JStr "Ошибка отправки" ∧
  error (snd (run (handleTest p) net w)) = JStr "Test failed".
Proof.
  intros Hblank Hat Ha Hok Hj Hd Hf.
  rewrite (handleTest_sent p net w Hblank Hat). cbv zeta.
  unfold settle. rewrite Ha, Hj, Hok.
  destruct data; try congruence; cbn in Hf |- *; rewrite ?Hf; done.
Qed.

Lemma X12_witness :
  status (snd (run (handleTest sample_props) (replies 500 (JObj [])) ready)) = "error" ∧
  message (snd (run (handleTest sample_props) (replies 500 (JObj [])) ready))
    = JStr "Ошибка отправки" ∧
  error (snd (run (handleTest sample_props) (replies 500 (JObj [])) ready))
    = JStr "Test failed".
Proof.
  apply (X12_refusal_without_text sample_props (replies 500 (JObj [])) ready
           (Response.make 500 (Normal (JObj []))) (JObj []));
    (reflexivity || discriminate).
Defined.

(** X13.  When the test send fails in transport (the request is rejected,
    or the response is not JSON) with a thrown value whose text is not
    empty, the banner shows that text: the message of the thrown [Error],
    or [Network error] for any other thrown value. *)
Theorem X13_transport_failure_is_shown p net w e :
  trim (email w) ≠ "" →
  includes (email w) "@" = true →
  transport_failure net (apiUrl p)
    (SendTest (UnisenderGo.SendTestParams.make (trim (email w)))) e →
  message_of e ≠ "" →
  status (snd (run (handleTest p) net w)) = "error" ∧
  message (snd (run (handleTest p) net w)) = JStr (message_of e) ∧
  localStorage (snd (run (handleTest p) net w)) = localStorage w ∧
  timers (snd (run (handleTest p) net w)) = timers w.
Proof.
  intros Hblank Hat Ht Htext. apply String.eqb_neq in Htext.
  rewrite (handleTest_sent p net w Hblank Hat). cbv zeta.
  unfold settle.
  destruct Ht as [Ha|(resp & Ha & Hj)]; rewrite Ha, ?Hj; cbn;
    unfold or_else; cbn; rewrite Htext; done.
Qed.

Lemma X13_witness :
  status (snd (run (handleTest sample_props) (unreachable (NonError None)) ready)) = "error" ∧
  message (snd (run (handleTest sample_props) (unreachable (NonError None)) ready))
    = JStr (message_of (NonError None)) ∧
  localStorage (snd (run (handleTest sample_props) (unreachable (NonError None)) ready))
    = localStorage ready ∧
  timers (snd (run (handleTest sample_props) (unreachable (NonError None)) ready))
    = timers ready.
Proof.
  apply (X13_transport_failure_is_shown sample_props (unreachable (NonError None)) ready
           (NonError None)); [discriminate|reflexivity|by left|discriminate].
Defined.

(** X14.  The flag written by a successful test send is the flag the mount
    effect reads: a banner mounted later on the resulting storage, with the
    same storage key and without [forceShow], renders nothing. *)
Theorem X14_stored_flag_hides_next_mount p q net net' w clock :
  send_succeeds p net w = true →
  storageKey_of q = storageKey_of p →
  forceShow_of q = false →
  render (snd (run (mount q) net'
                 (initial (localStorage (snd (run (handleTest p) net w))) clock))) = None.
Proof.
  intros Hok Hkey Hforce.
  destruct (handleTest_effects p net w) as (evs & _ & _ & _ & Hls & _).
  rewrite Hok in Hls. rewrite Hls. apply render_None.
  unfold run, mount, effect, bind, getItem, setIsConfigured, initial. cbn.
  rewrite Hkey, lookup_insert_eq, Hforce. by rewrite bool_decide_eq_true_2.
Qed.

Lemma X14_witness :
  render (snd (run (mount sample_props) accepting
                 (initial (localStorage (snd (run (handleTest sample_props) accepting ready)))
                    86400000))) = None.
Proof.
  apply (X14_stored_flag_hides_next_mount sample_props sample_props accepting accepting
           ready 86400000); reflexivity.
Defined.

(** X15.  A hidden banner stays hidden: once [isConfigured] is set, no
    test send, typing, timer or hook action shows the banner again; only
    the mount effect can. *)
Theorem X15_hidden_stays_hidden w :
  isConfigured w = true →
  (∀ p net, render (snd (run (handleTest p) net w)) = None) ∧
  (∀ value net, render (snd (run (onChange value) net w)) = None) ∧
  (∀ ms, render (advance ms w) = None) ∧
  (∀ apiUrl a net, render (snd (run (call apiUrl a) net w)) = None).
Proof.
  intros Hhidden. repeat split; intros; apply render_None.
  - destruct (handleTest_effects p net w) as (evs & _ & _ & _ & _ & _ & _ & ->). done.
  - exact Hhidden.
  - rewrite advance_isConfigured, Hhidden. done.
  - rewrite call_run. exact Hhidden.
Qed.

Lemma X15_witness :
  (∀ p net, render (snd (run (handleTest p) net
                            (advance 3000 (snd (run (handleTest sample_props) accepting ready)))))
             = None) ∧
  (∀ value net, render (snd (run (onChange value) net
                                (advance 3000 (snd (run (handleTest sample_props) accepting ready)))))
                 = None) ∧
  (∀ ms, render (advance ms (advance 3000 (snd (run (handleTest sample_props) accepting ready))))
         = None) ∧
  (∀ apiUrl a net, render (snd (run (call apiUrl a) net
                                  (advance 3000 (snd (run (handleTest sample_props) accepting ready)))))
                   = None).
Proof.
  apply (X15_hidden_stays_hidden
           (advance 3000 (snd (run (handleTest sample_props) accepting ready)))).
  reflexivity.
Defined.

(** X16.  After a successful test send the banner reports the success:
    the status is [success] with the confirmation text, the hook's [error]
    is [null] and [isLoading] is [false]; a banner that was shown is still
    shown, with the confirmation drawn in the success colours and the
    controls enabled. *)
Theorem X16_success_is_reported p net w :
  send_succeeds p net w = true →
  status (snd (run (handleTest p) net w)) = "success" ∧
  message (snd (run (handleTest p) net w))
    = JStr "Тестовое письмо отправлено! Проверьте почту." ∧
  error (snd (run (handleTest p) net w)) = JNull ∧
  isLoading (snd (run (handleTest p) net w)) = false ∧
  (render w ≠ None →
   render (snd (run (handleTest p) net w)) =
     Some {| input_value := email w;
             disabled := false;
             button_text := "Отправить тестовое письмо";
             message_box := Some (JStr "Тестовое письмо отправлено! Проверьте почту.", true) |}).
Proof.
  intros Hok. apply send_succeeds_spec in Hok as (Hblank & Hat & Hs).
  rewrite (handleTest_sent p net w Hblank Hat). cbv zeta. rewrite Hs.
  destruct (settle_success_clean _ _ Hs) as [_ ->]. cbn [snd status message error isLoading].
  repeat split. intros Hshown. unfold render in *. cbn.
  destruct (isConfigured w); [done|reflexivity].
Qed.

Lemma X16_witness :
  status (snd (run (handleTest sample_props) accepting ready)) = "success" ∧
  message (snd (run (handleTest sample_props) accepting ready))
    = JStr "Тестовое письмо отправлено! Проверьте почту." ∧
  error (snd (run (handleTest sample_props) accepting ready)) = JNull ∧
  isLoading (snd (run (handleTest sample_props) accepting ready)) = false ∧
  render (snd (run (handleTest sample_props) accepting ready)) =
    Some {| input_value := "a@b.com";
            disabled := false;
            button_text := "Отправить тестовое письмо";
            message_box := Some (JStr "Тестовое письмо отправлено! Проверьте почту.", true) |}.
Proof.
  destruct (X16_success_is_reported sample_props accepting ready eq_refl)
    as (Hstatus & Hmessage & Herror & Hloading & Hrender).
  split; [exact Hstatus|]. split; [exact Hmessage|]. split; [exact Herror|].
  split; [exact Hloading|]. apply Hrender. vm_compute. discriminate.
Defined.

(** * The subscribe form *)

Lemma read_get data k net w : get data k net w = (read data k, w).
Proof. by destruct data. Qed.

(** The whole of [handleSubmit], by cases on what the request came to and
    on what the callbacks do. *)
Lemma handleSubmit_run p net s :
  SubscribeForm.handleSubmit p net s =
    let sent :=
      (SubscribeForm.log s ++
       [SubscribeForm.PreventDefault;
        SubscribeForm.Fetch (SubscribeForm.apiUrl p +:+ "?action=subscribe")
          (SubscribeForm.request_init p s)])%list in
    let report (m : string) (typed_email typed_name : string) (succeeded : bool)
               (before : list SubscribeForm.effect) :=
      (match SubscribeForm.onError p with
       | None => Normal tt
       | Some callback => callback m
       end,
       SubscribeForm.State typed_email typed_name false succeeded (Some m)
         (sent ++ before ++
          match SubscribeForm.onError p with
          | None => []
          | Some _ => [SubscribeForm.OnError m]
          end)%list) in
    match SubscribeForm.failure_text (SubscribeForm.answer p net s) with
    | Some m =>
        report m (SubscribeForm.email s) (SubscribeForm.name s) (SubscribeForm.isSuccess s) []
    | None =>
        match SubscribeForm.onSuccess p with
        | None => (Normal tt, SubscribeForm.State "" "" false true None sent)
        | Some (Normal _) =>
            (Normal tt,
             SubscribeForm.State "" "" false true None (sent ++ [SubscribeForm.OnSuccess])%list)
        | Some (Throw e) => report (message_of e) "" "" true [SubscribeForm.OnSuccess]
        end
    end.
Proof.
  unfold SubscribeForm.handleSubmit, SubscribeForm.try_catch_finally, SubscribeForm.bind,
    SubscribeForm.preventDefault, SubscribeForm.setIsLoading, SubscribeForm.setError,
    SubscribeForm.readEmail, SubscribeForm.readName, SubscribeForm.fetch,
    SubscribeForm.await, SubscribeForm.throw, SubscribeForm.setIsSuccess,
    SubscribeForm.setEmail, SubscribeForm.setName, SubscribeForm.call_onSuccess,
    SubscribeForm.call_onError, SubscribeForm.ret, SubscribeForm.emit,
    SubscribeForm.failure_text, SubscribeForm.answer, SubscribeForm.request_init.
  cbn [SubscribeForm.email SubscribeForm.name SubscribeForm.isLoading
       SubscribeForm.isSuccess SubscribeForm.error SubscribeForm.log].
  cbv zeta.
  destruct (net _ _) as [e|resp].
  { destruct (SubscribeForm.onError p); cbn; rewrite <- ?app_assoc; reflexivity. }
  destruct (Response.json resp) as [data|e].
  2: { destruct (SubscribeForm.onError p); cbn; rewrite <- ?app_assoc; reflexivity. }
  destruct (Response.ok resp); cbn [negb].
  - destruct (SubscribeForm.onSuccess p) as [[[]|e]|];
      destruct (SubscribeForm.onError p); cbn; rewrite <- ?app_assoc; reflexivity.
  - destruct (read data "error") as [v|e];
      destruct (SubscribeForm.onError p); cbn; rewrite <- ?app_assoc; reflexivity.
Qed.

(** X17.  The form counts any 2xx response whose body parses as a success
    and never reads the body, so even the body [null] succeeds: provided
    [onSuccess] does not throw, the promise resolves, [isSuccess] is set,
    both inputs are cleared, no error is set, [isLoading] is [false],
    [onSuccess] (when given) was called exactly once after the request and
    [onError] not at all, and the success line is rendered. *)
Theorem X17_form_success_ignores_body p net s resp data :
  SubscribeForm.answer p net s = FetchResolves resp →
  Response.ok resp = true →
  Response.json resp = Normal data →
  (∀ e, SubscribeForm.onSuccess p ≠ Some (Throw e)) →
  SubscribeForm.handleSubmit p net s =
    (Normal tt,
     SubscribeForm.State "" "" false true None
       (SubscribeForm.log s ++
        [SubscribeForm.PreventDefault;
         SubscribeForm.Fetch (SubscribeForm.apiUrl p +:+ "?action=subscribe")
           (SubscribeForm.request_init p s)] ++
        match SubscribeForm.onSuccess p with
        | Some _ => [SubscribeForm.OnSuccess]
        | None => []
        end)%list) ∧
  SubscribeForm.render p (snd (SubscribeForm.handleSubmit p net s)) =
    SubscribeForm.SuccessLine
      ("text-green-600 font-medium " +:+ SubscribeForm.className_of p)
      (SubscribeForm.successMessage_of p).
Proof.
  intros Ha Hok Hj Hquiet. rewrite handleSubmit_run. cbv zeta.
  unfold SubscribeForm.failure_text. rewrite Ha, Hj, Hok.
  destruct (SubscribeForm.onSuccess p) as [[[]|e]|].
  - split; [|reflexivity]. by rewrite <- app_assoc.
  - by destruct (Hquiet e).
  - split; [|reflexivity]. by rewrite app_nil_r.
Qed.

Lemma X17_witness :
  SubscribeForm.handleSubmit sample_form (replies 200 JNull) filled_form =
    (Normal tt,
     SubscribeForm.State "" "" false true None
       [SubscribeForm.PreventDefault;
        SubscribeForm.Fetch (sample_url +:+ "?action=subscribe")
          (SubscribeForm.request_init sample_form filled_form);
        SubscribeForm.OnSuccess]) ∧
  SubscribeForm.render sample_form
    (snd (SubscribeForm.handleSubmit sample_form (replies 200 JNull) filled_form)) =
    SubscribeForm.SuccessLine "text-green-600 font-medium "
      "Вы успешно подписались на рассылку!".
Proof.
  apply (X17_form_success_ignores_body sample_form (replies 200 JNull) filled_form
           (Response.make 200 (Normal JNull)) JNull); (reflexivity || discriminate).
Defined.

(** X18.  When the form's request fails in transport (the request is
    rejected, or the response is not JSON) the text shown and the text
    handed to [onError] are the same, namely the message of the thrown
    [Error] or [Network error] for any other thrown value; [onError] (when
    given) is called exactly once, what was typed stays in the inputs,
    [isSuccess] is unchanged and [isLoading] ends [false]. *)
Theorem X18_form_transport_failure p net s e :
  (SubscribeForm.answer p net s = FetchRejects e ∨
   ∃ resp, SubscribeForm.answer p net s = FetchResolves resp ∧ Response.json resp = Throw e) →
  SubscribeForm.handleSubmit p net s =
    (match SubscribeForm.onError p with
     | None => Normal tt
     | Some callback => callback (message_of e)
     end,
     SubscribeForm.State (SubscribeForm.email s) (SubscribeForm.name s) false
       (SubscribeForm.isSuccess s) (Some (message_of e))
       (SubscribeForm.log s ++
        [SubscribeForm.PreventDefault;
         SubscribeForm.Fetch (SubscribeForm.apiUrl p +:+ "?action=subscribe")
           (SubscribeForm.request_init p s)] ++
        match SubscribeForm.onError p with
        | None => []
        | Some _ => [SubscribeForm.OnError (message_of e)]
        end)%list).
Proof.
  intros Hfail. rewrite handleSubmit_run. cbv zeta.
  unfold SubscribeForm.failure_text.
  destruct Hfail as [Ha|(resp & Ha & Hj)]; rewrite Ha, ?Hj;
    by rewrite <- app_assoc.
Qed.

Lemma X18_witness :
  SubscribeForm.handleSubmit sample_form (unreachable (ErrorInstance "Failed to fetch"))
    filled_form =
    (Normal tt,
     SubscribeForm.State "a@b.com" "Ann" false false (Some "Failed to fetch")
       [SubscribeForm.PreventDefault;
        SubscribeForm.Fetch (sample_url +:+ "?action=subscribe")
          (SubscribeForm.request_init sample_form filled_form);
        SubscribeForm.OnError "Failed to fetch"]).
Proof.
  apply (X18_form_transport_failure sample_form
           (unreachable (ErrorInstance "Failed to fetch")) filled_form
           (ErrorInstance "Failed to fetch")).
  left. reflexivity.
Defined.

(** X19.  When the endpoint answers the form with a non-2xx status and a
    non-empty [error] text, that text is what the form shows and what
    [onError] receives, and the form is not marked successful. *)
Theorem X19_form_shows_server_text p net s resp data text :
  SubscribeForm.answer p net s = FetchResolves resp →
  Response.ok resp = false →
  Response.json resp = Normal data →
  field data "error" = Some (JStr text) →
  text ≠ "" →
  SubscribeForm.error (snd (SubscribeForm.handleSubmit p net s)) = Some text ∧
  SubscribeForm.isSuccess (snd (SubscribeForm.handleSubmit p net s))
    = SubscribeForm.isSuccess s ∧
  (∀ callback, SubscribeForm.onError p = Some callback →
     fst (SubscribeForm.handleSubmit p net s) = callback text ∧
     List.last (SubscribeForm.log (snd (SubscribeForm.handleSubmit p net s)))
       SubscribeForm.PreventDefault = SubscribeForm.OnError text).
Proof.
  intros Ha Hok Hj Hf Htext. apply String.eqb_neq in Htext.
  rewrite handleSubmit_run. cbv zeta.
  unfold SubscribeForm.failure_text. rewrite Ha, Hj, Hok.
  destruct data; try discriminate Hf. cbn in Hf |- *. rewrite Hf.
  unfold or_else. cbn. rewrite Htext. cbn.
  repeat split; intros; destruct (SubscribeForm.onError p); simplify_eq; try done.
  apply List.last_last.
Qed.

Lemma X19_witness :
  SubscribeForm.error
    (snd (SubscribeForm.handleSubmit sample_form
            (replies 409 (JObj [("error", JStr "Already subscribed")])) filled_form))
    = Some "Already subscribed" ∧
  SubscribeForm.isSuccess
    (snd (SubscribeForm.handleSubmit sample_form
            (replies 409 (JObj [("error", JStr "Already subscribed")])) filled_form))
    = false ∧
  List.last
    (SubscribeForm.log
       (snd (SubscribeForm.handleSubmit sample_form
               (replies 409 (JObj [("error", JStr "Already subscribed")])) filled_form)))
    SubscribeForm.PreventDefault = SubscribeForm.OnError "Already subscribed".
Proof.
  destruct (X19_form_shows_server_text sample_form
              (replies 409 (JObj [("error", JStr "Already subscribed")])) filled_form
              (Response.make 409 (Normal (JObj [("error", JStr "Already subscribed")])))
              (JObj [("error", JStr "Already subscribed")]) "Already subscribed"
              eq_refl eq_refl eq_refl eq_refl ltac:(discriminate))
    as (Herror & Hsuccess & Hcallback).
  split; [exact Herror|]. split; [exact Hsuccess|].
  exact (proj2 (Hcallback _ eq_refl)).
Defined.

(** X20.  When the endpoint answers the form with a non-2xx status and a
    body (other than [null]) whose [error] is missing or falsy, the form
    shows the fixed text [Subscribe failed]. *)
Theorem X20_form_fallback_text p net s resp data :
  SubscribeForm.answer p net s = FetchResolves resp →
  Response.ok resp = false →
  Response.json resp = Normal data →
  data ≠ JNull →
  truthy (field data "error") = false →
  SubscribeForm.error (snd (SubscribeForm.handleSubmit p net s)) = Some "Subscribe failed".
Proof.
  intros Ha Hok Hj Hd Hf.
  rewrite handleSubmit_run. cbv zeta.
  unfold SubscribeForm.failure_text. rewrite Ha, Hj, Hok.
  assert (Hread : read data "error" = Normal (field data "error")) by by destruct data.
  rewrite Hread. unfold or_else. rewrite Hf.
  by destruct (field data "error").
Qed.

Lemma X20_witness :
  SubscribeForm.error
    (snd (SubscribeForm.handleSubmit sample_form (replies 500 (JObj [("error", JStr "")]))
            filled_form)) = Some "Subscribe failed".
Proof.
  apply (X20_form_fallback_text sample_form (replies 500 (JObj [("error", JStr "")]))
           filled_form (Response.make 500 (Normal (JObj [("error", JStr "")])))
           (JObj [("error", JStr "")])); (reflexivity || discriminate).
Defined.

(** X21.  The form and the hook speak to the endpoint in the same way: the
    form performs exactly one request per submit, and it is the request
    [subscribe] of the hook would send for the typed address, with the
    typed name only when the name field is shown and without tags. *)
Theorem X21_form_request_is_the_hook_request p net s :
  ∃ rest,
    SubscribeForm.log (snd (SubscribeForm.handleSubmit p net s)) =
      (SubscribeForm.log s ++
       [SubscribeForm.PreventDefault;
        SubscribeForm.Fetch
          (request_url (SubscribeForm.apiUrl p)
             (Subscribe {| Unisender.email := SubscribeForm.email s;
                           Unisender.name := if SubscribeForm.showNameField_of p
                                             then Some (SubscribeForm.name s) else None;
                           Unisender.tags := None |}))
          (request_init
             (Subscribe {| Unisender.email := SubscribeForm.email s;
                           Unisender.name := if SubscribeForm.showNameField_of p
                                             then Some (SubscribeForm.name s) else None;
                           Unisender.tags := None |}))] ++ rest)%list ∧
    Forall (fun ev => ∀ url init, ev ≠ SubscribeForm.Fetch url init) rest.
Proof.
  assert (Hinit : SubscribeForm.request_init p s =
            request_init
              (Subscribe {| Unisender.email := SubscribeForm.email s;
                            Unisender.name := if SubscribeForm.showNameField_of p
                                              then Some (SubscribeForm.name s) else None;
                            Unisender.tags := None |})).
  { unfold SubscribeForm.request_init, request_init.
    by destruct (SubscribeForm.showNameField_of p). }
  rewrite handleSubmit_run, <- Hinit. cbv zeta.
  destruct (SubscribeForm.failure_text _) as [m|];
    [|destruct (SubscribeForm.onSuccess p) as [[[]|e]|]];
    destruct (SubscribeForm.onError p); cbn [snd SubscribeForm.log];
    eexists; (split; [rewrite <- ?app_assoc; try reflexivity; by rewrite app_nil_r|]);
    repeat constructor; done.
Qed.

(** X22.  The only exception that can escape [handleSubmit] is one thrown
    by the [onError] callback: if the promise rejects, then [onError] was
    given, was called with the text that is now shown as the error, and
    threw the value the promise rejects with. *)
Theorem X22_only_onError_can_reject p net s e :
  fst (SubscribeForm.handleSubmit p net s) = Throw e →
  ∃ callback m,
    SubscribeForm.onError p = Some callback ∧
    callback m = Throw e ∧
    SubscribeForm.error (snd (SubscribeForm.handleSubmit p net s)) = Some m.
Proof.
  rewrite handleSubmit_run. cbv zeta.
  destruct (SubscribeForm.failure_text _) as [m|];
    [|destruct (SubscribeForm.onSuccess p) as [[[]|e']|]];
    destruct (SubscribeForm.onError p) as [callback|]; cbn [fst snd SubscribeForm.error];
    try discriminate; intros Hthrow; by eexists _, _.
Qed.

Lemma X22_witness :
  ∃ callback m,
    SubscribeForm.onError
      (form_with None (Some (fun text => Throw (ErrorInstance ("unhandled: " +:+ text)))))
      = Some callback ∧
    callback m = Throw (ErrorInstance "unhandled: Subscribe failed") ∧
    SubscribeForm.error
      (snd (SubscribeForm.handleSubmit
              (form_with None (Some (fun text => Throw (ErrorInstance ("unhandled: " +:+ text)))))
              (replies 503 (JObj [])) filled_form)) = Some m.
Proof.
  apply (X22_only_onError_can_reject
           (form_with None (Some (fun text => Throw (ErrorInstance ("unhandled: " +:+ text)))))
           (replies 503 (JObj [])) filled_form
           (ErrorInstance "unhandled: Subscribe failed")).
  reflexivity.
Defined.

(** X23.  [isLoading] is [false] after every submit, on every path: the
    request succeeded or failed, a callback threw, the promise resolved or
    rejected. *)
Theorem X23_form_loading_always_reset p net s :
  SubscribeForm.isLoading (snd (SubscribeForm.handleSubmit p net s)) = false.
Proof.
  rewrite handleSubmit_run. cbv zeta.
  destruct (SubscribeForm.failure_text _) as [m|];
    [|destruct (SubscribeForm.onSuccess p) as [[[]|e]|]]; reflexivity.
Qed.

(** X24.  An [onSuccess] callback that throws after a 2xx response is
    handled as a failure of a form already marked successful: [isSuccess]
    is set and the inputs are cleared, yet the thrown message is stored as
    the error and handed to [onError]; the success line is what is
    rendered, so the stored error is never shown. *)
Theorem X24_throwing_onSuccess p net s resp data e :
  SubscribeForm.answer p net s = FetchResolves resp →
  Response.ok resp = true →
  Response.json resp = Normal data →
  SubscribeForm.onSuccess p = Some (Throw e) →
  SubscribeForm.handleSubmit p net s =
    (match SubscribeForm.onError p with
     | None => Normal tt
     | Some callback => callback (message_of e)
     end,
     SubscribeForm.State "" "" false true (Some (message_of e))
       (SubscribeForm.log s ++
        [SubscribeForm.PreventDefault;
         SubscribeForm.Fetch (SubscribeForm.apiUrl p +:+ "?action=subscribe")
           (SubscribeForm.request_init p s);
         SubscribeForm.OnSuccess] ++
        match SubscribeForm.onError p with
        | None => []
        | Some _ => [SubscribeForm.OnError (message_of e)]
        end)%list) ∧
  SubscribeForm.render p (snd (SubscribeForm.handleSubmit p net s)) =
    SubscribeForm.SuccessLine
      ("text-green-600 font-medium " +:+ SubscribeForm.className_of p)
      (SubscribeForm.successMessage_of p).
Proof.
  intros Ha Hok Hj Hthrow. rewrite handleSubmit_run. cbv zeta.
  unfold SubscribeForm.failure_text. rewrite Ha, Hj, Hok, Hthrow.
  split; [|reflexivity]. by rewrite <- !app_assoc.
Qed.

Lemma X24_witness :
  SubscribeForm.handleSubmit
    (form_with (Some (Throw (ErrorInstance "analytics is not defined")))
       (Some (fun _ => Normal tt)))
    accepting filled_form =
    (Normal tt,
     SubscribeForm.State "" "" false true (Some "analytics is not defined")
       [SubscribeForm.PreventDefault;
        SubscribeForm.Fetch (sample_url +:+ "?action=subscribe")
          (SubscribeForm.request_init
             (form_with (Some (Throw (ErrorInstance "analytics is not defined")))
                (Some (fun _ => Normal tt))) filled_form);
        SubscribeForm.OnSuccess;
        SubscribeForm.OnError "analytics is not defined"]) ∧
  SubscribeForm.render
    (form_with (Some (Throw (ErrorInstance "analytics is not defined")))
       (Some (fun _ => Normal tt)))
    (snd (SubscribeForm.handleSubmit
            (form_with (Some (Throw (ErrorInstance "analytics is not defined")))
               (Some (fun _ => Normal tt)))
            accepting filled_form)) =
    SubscribeForm.SuccessLine "text-green-600 font-medium "
      "Вы успешно подписались на рассылку!".
Proof.
  apply (X24_throwing_onSuccess
           (form_with (Some (Throw (ErrorInstance "analytics is not defined")))
              (Some (fun _ => Normal tt)))
           accepting filled_form
           (Response.make 200
              (Normal (JObj [("success", JBool true); ("job_id", JStr "job-1")])))
           (JObj [("success", JBool true); ("job_id", JStr "job-1")])
           (ErrorInstance "analytics is not defined")); reflexivity.
Defined.

(** X25.  Success is final: nothing in the form resets [isSuccess], so a
    form that shows the success line shows it after any further submit,
    whatever the endpoint answers. *)
Theorem X25_form_success_is_final p net s :
  SubscribeForm.isSuccess s = true →
  SubscribeForm.isSuccess (snd (SubscribeForm.handleSubmit p net s)) = true ∧
  SubscribeForm.render p (snd (SubscribeForm.handleSubmit p net s)) =
    SubscribeForm.SuccessLine
      ("text-green-600 font-medium " +:+ SubscribeForm.className_of p)
      (SubscribeForm.successMessage_of p).
Proof.
  intros Hdone. rewrite handleSubmit_run. cbv zeta.
  destruct (SubscribeForm.failure_text _) as [m|];
    [|destruct (SubscribeForm.onSuccess p) as [[[]|e]|]];
    unfold SubscribeForm.render; cbn [snd SubscribeForm.isSuccess]; rewrite ?Hdone; done.
Qed.

Lemma X25_witness :
  SubscribeForm.isSuccess
    (snd (SubscribeForm.handleSubmit sample_form (unreachable (NonError None))
            (SubscribeForm.State "" "" false true None []))) = true ∧
  SubscribeForm.render sample_form
    (snd (SubscribeForm.handleSubmit sample_form (unreachable (NonError None))
            (SubscribeForm.State "" "" false true None []))) =
    SubscribeForm.SuccessLine "text-green-600 font-medium "
      "Вы успешно подписались на рассылку!".
Proof.
  apply (X25_form_success_is_final sample_form (unreachable (NonError None))
           (SubscribeForm.State "" "" false true None [])).
  reflexivity.
Defined.
